(** * createNPC: a chat command that materializes a character

    A shallow embedding of [roll20_api_scripts/createNPC.js].  The script is
    a chat handler run by a virtual-tabletop host: it decodes a JSON payload,
    checks that the required fields are there and creates a character with
    its attributes and one ability through the host's [createObj].

    The host (JSON decoder, random generator, number printing, object store,
    wording of the engine's TypeErrors) is a parameter of the development.
    JavaScript exceptions are explicit ([Completion]); the host's state (the
    store, the chat, the console, the random generator) is threaded through
    a state-and-exception monad [M].

    Conventions of the model:
    - a string is a sequence of 8-bit code units;
    - a message has a [type], a [content] and a [playerid], all strings;
    - [sendChat] and [log] always succeed; a write that the store rejects
      makes [createObj] throw;
    - decoded objects list their own properties; the only inherited
      properties that matter to the script are the methods it calls
      ([hasOwnProperty], [forEach], [join], [toString]). *)

From Stdlib Require Import String Ascii List Bool Arith Lia.
From Stdlib Require Import DecimalString.
Import ListNotations.

#[local] Set Warnings "-register-all".

Local Open Scope list_scope.
Local Open Scope string_scope.

(** ** Strings *)

Module Str.

(** [s.substring(from, to)] for [from <= to]: the code units at the
    positions [from .. to-1] that exist. *)
Definition substring (from to : nat) (s : string) : string :=
  String.substring from (to - from) s.

Fixpoint drop (n : nat) (s : string) : string :=
  match n, s with
  | 0, _ => s
  | S _, EmptyString => EmptyString
  | S n', String _ s' => drop n' s'
  end.

(** [s.replace(pat, rep)] with a string pattern: the first occurrence only.
    (The script's replacement is the empty string, so no [$] pattern of the
    replacement text is involved.) *)
Fixpoint replace (pat rep s : string) : string :=
  if String.prefix pat s then (rep ++ drop (String.length pat) s)%string
  else match s with
       | EmptyString => s
       | String c s' => String c (replace pat rep s')
       end.

(** White space of [trim], among 8-bit code units: TAB, LF, VT, FF, CR,
    SP and NBSP. *)
Definition is_space (c : ascii) : bool :=
  let n := nat_of_ascii c in
  (Nat.leb 9 n && Nat.leb n 13) || Nat.eqb n 32 || Nat.eqb n 160.

Fixpoint trim_start (s : string) : string :=
  match s with
  | EmptyString => EmptyString
  | String c s' => if is_space c then trim_start s' else s
  end.

(** [trim_end s]: [s] without its trailing white space. *)
Fixpoint trim_end (s : string) : string :=
  match s with
  | EmptyString => EmptyString
  | String c s' =>
      match trim_end s' with
      | EmptyString => if is_space c then EmptyString else String c EmptyString
      | t => String c t
      end
  end.

Definition trim (s : string) : string := trim_end (trim_start s).

Fixpoint rev (s : string) : string :=
  match s with
  | EmptyString => EmptyString
  | String c s' => (rev s' ++ String c EmptyString)%string
  end.

(** [strip_prefix p s = Some t] exactly when [s = p ++ t]. *)
Fixpoint strip_prefix (p s : string) : option string :=
  match p, s with
  | EmptyString, _ => Some s
  | String _ _, EmptyString => None
  | String a p', String b s' =>
      if Ascii.eqb a b then strip_prefix p' s' else None
  end.

(** [strip_suffix q s = Some t] exactly when [s = t ++ q]. *)
Definition strip_suffix (q s : string) : option string :=
  option_map rev (strip_prefix (rev q) (rev s)).

Definition of_nat (n : nat) : string :=
  NilZero.string_of_uint (Nat.to_uint n).

End Str.

(** ** Exceptions *)

Inductive Exn : Type :=
| Error (message : string)
| SyntaxError (message : string)
| TypeError (message : string)
| StoreError (message : string).

Definition message (e : Exn) : string :=
  match e with
  | Error m | SyntaxError m | TypeError m | StoreError m => m
  end.

Inductive Completion (A : Type) : Type :=
| Normal (a : A)
| Throw (e : Exn).
Arguments Normal {A} a.
Arguments Throw {A} e.

Definition cbind {A B} (c : Completion A) (k : A -> Completion B)
  : Completion B :=
  match c with
  | Normal a => k a
  | Throw e => Throw e
  end.

(** ** Values *)

Section Script.

(** JavaScript numbers are IEEE doubles; the script only ever prints them,
    so they stay abstract and the host prints them. *)
Context {number : Type}.

(** What [JSON.parse] returns, and [undefined], which reading an absent
    property yields.  An object lists its own properties, each key once. *)
Inductive JsVal : Type :=
| Undefined
| Null
| Bool (b : bool)
| Num (n : number)
| Str (s : string)
| Arr (items : list JsVal)
| Obj (properties : list (string * JsVal)).

Definition Props : Type := list (string * JsVal).

Fixpoint lookup (k : string) (ps : Props) : option JsVal :=
  match ps with
  | [] => None
  | (k', v) :: r => if String.eqb k k' then Some v else lookup k r
  end.

Definition has_key (k : string) (ps : Props) : bool :=
  match lookup k ps with Some _ => true | None => false end.

(** The places where the engine raises a TypeError in this script. *)
Inductive Fault : Type :=
| ReadOfNullish (v : JsVal) (prop : string)
| NotAFunction (callee : string)
| NotPrimitive.

(** ** The host *)

(** A record of the host store: its type, the id the host gave it and the
    properties it was created with. *)
Record RObj : Type := mkObj {
  obj_type : string;
  id : string;
  props : Props
}.

Record Host : Type := mkHost {
  (** [JSON.parse]: the decoded value, or the message of the SyntaxError. *)
  JSON_parse : string -> string + JsVal;
  (** The value of the [n]-th call of [Math.random] (counted from 0). *)
  Math_random : nat -> number;
  (** [x.toString(radix)]. *)
  Number_toString : number -> nat -> string;
  (** The message of the TypeError that the engine raises. *)
  TypeError_message : Fault -> string;
  (** [createObj(type, attributes)] on a given store: the id of the new
      record, or the error with which the store rejects the write. *)
  createObj_outcome : list RObj -> string -> Props -> string + string
}.

Variable h : Host.

Definition type_error {A} (f : Fault) : Completion A :=
  Throw (TypeError (TypeError_message h f)).

(** ** The engine: property reads, method calls, string conversion *)

(** [v.k] for the property names the script reads on decoded data (the
    field names of a descriptor, [name] and [description] of an action):
    none is defined by a built-in prototype, none is an index or [length].*)
Definition Get (v : JsVal) (k : string) : Completion JsVal :=
  match v with
  | Undefined | Null => type_error (ReadOfNullish v k)
  | Obj ps => Normal (match lookup k ps with Some x => x | None => Undefined end)
  | _ => Normal Undefined
  end.

(** The own property names of an array or a string of length [n]: the
    indices below [n] and [length]. *)
Definition index_or_length (n : nat) (k : string) : bool :=
  String.eqb k "length" || existsb (fun i => String.eqb k (Str.of_nat i)) (seq 0 n).

(** [Object.prototype.hasOwnProperty] applied to a value. *)
Definition own_property (v : JsVal) (k : string) : bool :=
  match v with
  | Obj ps => has_key k ps
  | Arr l => index_or_length (List.length l) k
  | Str s => index_or_length (String.length s) k
  | _ => false
  end.

(** The call [data.hasOwnProperty(field)]: the method is looked up on the
    value first.  A decoded object that has a key [hasOwnProperty] of its
    own shadows the inherited method with a value that is no function. *)
Definition call_hasOwnProperty (data : JsVal) (field : string)
  : Completion bool :=
  match data with
  | Undefined | Null => type_error (ReadOfNullish data "hasOwnProperty")
  | Obj ps =>
      if has_key "hasOwnProperty" ps
      then type_error (NotAFunction "data.hasOwnProperty")
      else Normal (has_key field ps)
  | _ => Normal (own_property data field)
  end.

(** [Array.prototype.join]: [undefined] and [null] elements print as the
    empty string, the others through [elem]. *)
Definition join_with (elem : JsVal -> Completion string) (sep : string)
  : list JsVal -> Completion string :=
  fix go (l : list JsVal) : Completion string :=
    match l with
    | [] => Normal ""
    | x :: r =>
        cbind (match x with
               | Undefined | Null => Normal ""
               | _ => elem x
               end)
          (fun s =>
             match r with
             | [] => Normal s
             | _ :: _ => cbind (go r) (fun t => Normal (s ++ sep ++ t)%string)
             end)
    end.

(** The abstract operation ToString, as a template literal applies it.  An
    array prints through [join(",")]; a plain object prints as
    [[object Object]] unless a key [toString] of its own shadows the
    inherited method, in which case no primitive value is reached. *)
Fixpoint ToString (v : JsVal) : Completion string :=
  match v with
  | Undefined => Normal "undefined"
  | Null => Normal "null"
  | Bool b => Normal (if b then "true" else "false")
  | Num n => Normal (Number_toString h n 10)
  | Str s => Normal s
  | Arr l => join_with ToString "," l
  | Obj ps =>
      if has_key "toString" ps then type_error NotPrimitive
      else Normal "[object Object]"
  end.

(** [v.join(sep)]: only an array has the method. *)
Definition call_join (v : JsVal) (sep : string) : Completion string :=
  match v with
  | Arr l => join_with ToString sep l
  | Undefined | Null => type_error (ReadOfNullish v "join")
  | _ => type_error (NotAFunction "data.personality_traits.join")
  end.

(** ** The world and the monad *)

Record World : Type := mkWorld {
  store : list RObj;               (* records, oldest first *)
  chat : list (string * string);   (* sendChat(speakingAs, input) *)
  console : list string;           (* log(message) *)
  draws : nat                      (* calls of Math.random so far *)
}.

Definition M (A : Type) : Type := World -> Completion A * World.

Definition ret {A} (a : A) : M A := fun w => (Normal a, w).

Definition bind {A B} (m : M A) (k : A -> M B) : M B :=
  fun w =>
    match m w with
    | (Normal a, w') => k a w'
    | (Throw e, w') => (Throw e, w')
    end.

Definition lift {A} (c : Completion A) : M A := fun w => (c, w).

(** [try { body } catch (error) { handler(error) }] *)
Definition try_catch {A} (body : M A) (handler : Exn -> M A) : M A :=
  fun w =>
    match body w with
    | (Normal a, w') => (Normal a, w')
    | (Throw e, w') => handler e w'
    end.

Notation "x <- m ;; k" := (bind m (fun x => k))
  (at level 61, m at next level, right associativity).
Notation "m ;;; k" := (bind m (fun _ => k))
  (at level 61, right associativity).

(** ** The host's functions *)

Definition sendChat (speakingAs input : string) : M unit :=
  fun w => (Normal tt,
            mkWorld (store w) (chat w ++ [(speakingAs, input)])%list (console w) (draws w)).

Definition log (text : string) : M unit :=
  fun w => (Normal tt,
            mkWorld (store w) (chat w) (console w ++ [text])%list (draws w)).

Definition createObj (type : string) (attributes : Props) : M RObj :=
  fun w =>
    match createObj_outcome h (store w) type attributes with
    | inl e => (Throw (StoreError e), w)
    | inr i =>
        let o := mkObj type i attributes in
        (Normal o, mkWorld (store w ++ [o])%list (chat w) (console w) (draws w))
    end.

Definition Math_random_call : M number :=
  fun w => (Normal (Math_random h (draws w)),
            mkWorld (store w) (chat w) (console w) (S (draws w))).

(** [arr.forEach(callback)] on a list, and the method call on a value
    written [callee] in the script: only an array has the method. *)
Fixpoint forEach_list {A} (callback : A -> M unit) (l : list A) : M unit :=
  match l with
  | [] => ret tt
  | x :: r => callback x ;;; forEach_list callback r
  end.

Definition forEach (callee : string) (v : JsVal) (callback : JsVal -> M unit)
  : M unit :=
  match v with
  | Arr l => forEach_list callback l
  | Undefined | Null => lift (type_error (ReadOfNullish v "forEach"))
  | _ => lift (type_error (NotAFunction (callee ++ ".forEach")))
  end.

(** [arr.every(callback)]: stops at the first element that fails. *)
Fixpoint every {A} (callback : A -> Completion bool) (l : list A)
  : Completion bool :=
  match l with
  | [] => Normal true
  | x :: r => cbind (callback x) (fun b => if b then every callback r else Normal false)
  end.

(** ** The script *)

Record Msg : Type := mkMsg {
  type : string;
  content : string;
  playerid : string
}.

Definition LF : string := String "010"%char EmptyString.

Definition extractNPCData (content : string) : Completion JsVal :=
  let jsonStr := Str.trim (Str.replace "!create-npc" "" content) in
  match JSON_parse h jsonStr with
  | inr v => Normal v
  | inl m =>
      let error := SyntaxError m in
      Throw (Error ("Invalid JSON format. Please check your input. Error: "
                    ++ message error))
  end.

Definition requiredFields : list string :=
  [ "name"; "race"; "class"; "level";
    "strength"; "dexterity"; "constitution"; "intelligence"; "wisdom"; "charisma";
    "actions"; "background"; "personality_traits"; "equipment"; "skills";
    "languages"; "appearance" ].

Definition validateNPCData (data : JsVal) : Completion bool :=
  every (fun field => call_hasOwnProperty data field) requiredFields.

(** Helper function to generate a unique row ID for repeating sections *)
Definition generateRowID : M string :=
  r <- Math_random_call ;;
  ret (Str.substring 2 10 (Number_toString h r 36)).

(** The object literal [{name: k, current: data.k}] (or [items: data.k]). *)
Definition entry (data : JsVal) (k : string) : M (string * JsVal) :=
  v <- lift (Get data k) ;; ret (k, v).

Fixpoint entries (data : JsVal) (ks : list string) : M (list (string * JsVal)) :=
  match ks with
  | [] => ret []
  | k :: r => e <- entry data k ;; es <- entries data r ;; ret (e :: es)
  end.

(** [createObj("attribute", {name, current, characterid: character.id})],
    whose result the script drops. *)
Definition new_attribute (character : RObj) (name : string) (current : JsVal)
  : M unit :=
  createObj "attribute"
    [("name", Str name); ("current", current); ("characterid", Str (id character))]
  ;;; ret tt.

Definition addAttributesToCharacter (character : RObj) (data : JsVal) : M unit :=
  attributes <- entries data
    [ "race"; "class"; "level"; "strength"; "dexterity"; "constitution";
      "intelligence"; "wisdom"; "charisma" ] ;;
  repeatingAttributes <- entries data [ "equipment"; "skills"; "languages" ] ;;
  (* Add basic attributes *)
  forEach_list (fun attr => new_attribute character (fst attr) (snd attr))
    attributes ;;;
  (* Add repeating attributes *)
  forEach_list (fun attr =>
      forEach "attr.items" (snd attr) (fun item =>
        row <- generateRowID ;;
        new_attribute character ("repeating_" ++ fst attr ++ "_" ++ row ++ "_name") item))
    repeatingAttributes ;;;
  (* Add appearance as a single attribute *)
  appearance <- lift (Get data "appearance") ;;
  new_attribute character "appearance" appearance ;;;
  (* Add background and personality traits *)
  background <- lift (Get data "background") ;;
  new_attribute character "background" background ;;;
  traits <- lift (Get data "personality_traits") ;;
  joined <- lift (call_join traits ", ") ;;
  new_attribute character "personality_traits" (Str joined).

Definition createActionsAbility (character : RObj) (actions : JsVal) : M unit :=
  forEach "actions" actions (fun action =>
    row <- generateRowID ;;
    name <- lift (Get action "name") ;;
    new_attribute character ("repeating_npcaction_" ++ row ++ "_name") name ;;;
    row' <- generateRowID ;;
    description <- lift (Get action "description") ;;
    new_attribute character ("repeating_npcaction_" ++ row' ++ "_description")
      description).

Definition createBackgroundAbility (character : RObj) (data : JsVal) : M unit :=
  background <- lift (Get data "background") ;;
  b <- lift (ToString background) ;;
  let backgroundText := "Background: " ++ b ++ LF ++ LF in
  traits <- lift (Get data "personality_traits") ;;
  t <- lift (ToString traits) ;;
  let backgroundText := backgroundText ++ "Personality Traits: " ++ t ++ LF ++ LF in
  createObj "ability"
    [("name", Str "Background & Personality");
     ("description", Str backgroundText);
     ("characterid", Str (id character))] ;;;
  ret tt.

Definition validation_error : string :=
  "/w gm Error: Invalid NPC data format. Please check all required fields are present.".

(** The body of the [try] block of [handleInput]. *)
Definition pipeline (msg : Msg) : M unit :=
  npcData <- lift (extractNPCData (content msg)) ;;
  valid <- lift (validateNPCData npcData) ;;
  if negb valid then sendChat "NPC Creator" validation_error
  else
    name <- lift (Get npcData "name") ;;
    character <- createObj "character"
      [("name", name); ("controlledby", Str (playerid msg))] ;;
    addAttributesToCharacter character npcData ;;;
    actions <- lift (Get npcData "actions") ;;
    createActionsAbility character actions ;;;
    createBackgroundAbility character npcData ;;;
    name <- lift (Get npcData "name") ;;
    n <- lift (ToString name) ;;
    sendChat "NPC Creator" ("/w gm NPC " ++ n ++ " has been created!").

Definition report (error : Exn) : M unit :=
  sendChat "NPC Creator" ("/w gm Error creating NPC: " ++ message error) ;;;
  log ("NPC Creation Error: " ++ message error).

Definition handleInput (msg : Msg) : M unit :=
  if negb (String.eqb (type msg) "api")
     || negb (String.prefix "!create-npc" (content msg))
  then ret tt
  else try_catch (pipeline msg) report.

(** ** Observing a run *)

(** The text that [extractNPCData] hands to the decoder. *)
Definition payload (content : string) : string :=
  Str.trim (Str.replace "!create-npc" "" content).

(** The value of [v.k] where the read does not throw. *)
Definition field (v : JsVal) (k : string) : JsVal :=
  match v with
  | Obj ps => match lookup k ps with Some x => x | None => Undefined end
  | _ => Undefined
  end.

(** Values on which a property can be read. *)
Definition coercible (v : JsVal) : bool :=
  match v with
  | Undefined | Null => false
  | _ => true
  end.

(** An object that has a key [hasOwnProperty] of its own. *)
Definition shadows (v : JsVal) : bool :=
  match v with
  | Obj ps => has_key "hasOwnProperty" ps
  | _ => false
  end.

(** A call [createObj(type, attributes)], and the store after the host
    accepted a sequence of them. *)
Definition Request : Type := (string * Props)%type.

Definition issued (st : list RObj) (type : string) (attributes : Props) : string :=
  match createObj_outcome h st type attributes with
  | inr i => i
  | inl _ => ""
  end.

Definition add (st : list RObj) (r : Request) : list RObj :=
  (st ++ [mkObj (fst r) (issued st (fst r) (snd r)) (snd r)])%list.

Definition add_all (st : list RObj) (rs : list Request) : list RObj :=
  fold_left add rs st.

(** The row id that the [n]-th draw of the generator yields. *)
Definition rowid (n : nat) : string :=
  Str.substring 2 10 (Number_toString h (Math_random h n) 36).

Definition attribute_request (cid name : string) (current : JsVal) : Request :=
  ("attribute", [("name", Str name); ("current", current); ("characterid", Str cid)]).

Definition basic_requests (cid : string) (d : JsVal) : list Request :=
  map (fun k => attribute_request cid k (field d k))
    [ "race"; "class"; "level"; "strength"; "dexterity"; "constitution";
      "intelligence"; "wisdom"; "charisma" ].

Fixpoint repeating_requests (cid group : string) (n : nat) (items : list JsVal)
  : list Request :=
  match items with
  | [] => []
  | item :: r =>
      attribute_request cid ("repeating_" ++ group ++ "_" ++ rowid n ++ "_name") item
      :: repeating_requests cid group (S n) r
  end.

Fixpoint action_requests (cid : string) (n : nat) (actions : list JsVal)
  : list Request :=
  match actions with
  | [] => []
  | action :: r =>
      attribute_request cid ("repeating_npcaction_" ++ rowid n ++ "_name")
        (field action "name")
      :: attribute_request cid ("repeating_npcaction_" ++ rowid (S n) ++ "_description")
           (field action "description")
      :: action_requests cid (S (S n)) r
  end.

Definition ability_request (cid text : string) : Request :=
  ("ability", [("name", Str "Background & Personality");
               ("description", Str text);
               ("characterid", Str cid)]).

Definition narrative (b t : string) : string :=
  "Background: " ++ b ++ LF ++ LF ++ "Personality Traits: " ++ t ++ LF ++ LF.

(** What [addAttributesToCharacter] asks of the store. *)
Definition field_requests (cid : string) (d : JsVal) (n : nat)
  (equipment skills languages : list JsVal) (joined : string) : list Request :=
  (basic_requests cid d
   ++ repeating_requests cid "equipment" n equipment
   ++ repeating_requests cid "skills" (n + List.length equipment) skills
   ++ repeating_requests cid "languages"
        (n + List.length equipment + List.length skills) languages
   ++ [ attribute_request cid "appearance" (field d "appearance");
        attribute_request cid "background" (field d "background");
        attribute_request cid "personality_traits" (Str joined) ])%list.

Definition character_request (d : JsVal) (player : string) : Request :=
  ("character", [("name", field d "name"); ("controlledby", Str player)]).

(** The id that a store [st] gives to the character of a descriptor. *)
Definition character_id (st : list RObj) (d : JsVal) (player : string) : string :=
  issued st "character" (snd (character_request d player)).

(** [traits.join(", ")] where it does not throw. *)
Definition joined_traits (traits : list JsVal) : string :=
  match join_with ToString ", " traits with
  | Normal j => j
  | Throw _ => ""
  end.

(** Everything one command asks of a store [st], the generator having
    been drawn [n] times before. *)
Definition materialization (st : list RObj) (n : nat) (player : string)
  (d : JsVal) (equipment skills languages actions traits : list JsVal)
  (b t : string) : list Request :=
  let cid := character_id st d player in
  (character_request d player
   :: field_requests cid d n equipment skills languages (joined_traits traits)
   ++ action_requests cid
        (n + List.length equipment + List.length skills + List.length languages)
        actions
   ++ [ ability_request cid (narrative b t) ])%list.

Definition request_of (o : RObj) : Request := (obj_type o, props o).

(** A request as a record without id, to classify it as a record. *)
Definition blank (r : Request) : RObj := mkObj (fst r) "" (snd r).

(** Kinds of records. *)
Definition count (P : RObj -> bool) (l : list RObj) : nat :=
  List.length (filter P l).

Definition is_character (o : RObj) : bool := String.eqb (obj_type o) "character".

Definition is_ability (o : RObj) : bool := String.eqb (obj_type o) "ability".

Definition attribute_name (o : RObj) : option string :=
  if String.eqb (obj_type o) "attribute" then
    match lookup "name" (props o) with
    | Some (Str n) => Some n
    | _ => None
    end
  else None.

Definition is_attribute (o : RObj) : bool := String.eqb (obj_type o) "attribute".

(** Attribute records of the actions field group, and the others (scalar
    fields and entries of the three repeating lists). *)
Definition is_action_attribute (o : RObj) : bool :=
  match attribute_name o with
  | Some n => String.prefix "repeating_npcaction_" n
  | None => false
  end.

Definition is_field_attribute (o : RObj) : bool :=
  match attribute_name o with
  | Some n => negb (String.prefix "repeating_npcaction_" n)
  | None => false
  end.

(** The row discriminator of a record named
    [repeating_<group>_<row>_<suffix>]. *)
Definition row_of (group suffix : string) (o : RObj) : option string :=
  match attribute_name o with
  | Some n =>
      match Str.strip_prefix ("repeating_" ++ group ++ "_") n with
      | Some rest => Str.strip_suffix ("_" ++ suffix) rest
      | None => None
      end
  | None => None
  end.

(** The row discriminators of a field group among some records, in the
    order of the records. *)
Definition rows (group : string) (l : list RObj) : list string :=
  flat_map (fun o =>
              match row_of group "name" o with
              | Some r => [r]
              | None =>
                  match row_of group "description" o with
                  | Some r => [r]
                  | None => []
                  end
              end) l.

(** The row discriminators of the four field groups. *)
Definition all_rows (l : list RObj) : list string :=
  (rows "equipment" l ++ rows "skills" l ++ rows "languages" l
   ++ rows "npcaction" l)%list.

(** How many of some requests make a record of a given kind. *)
Definition tally (P : RObj -> bool) (rs : list Request) : nat :=
  count P (map blank rs).

(** A chat message that only the game master sees. *)
Definition is_whisper (entry : string * string) : bool :=
  String.prefix "/w gm " (snd entry).

(** A descriptor on which every step of the materialization goes through:
    it passes the validator, its four lists and its traits are arrays, no
    action is [null], and its background and traits can be printed. *)
Record WellTyped (d : JsVal)
  (equipment skills languages actions traits : list JsVal) (b t : string)
  : Prop := mkWellTyped {
  passes : validateNPCData d = Normal true;
  equipment_list : field d "equipment" = Arr equipment;
  skills_list : field d "skills" = Arr skills;
  languages_list : field d "languages" = Arr languages;
  actions_list : field d "actions" = Arr actions;
  actions_coercible : forallb coercible actions = true;
  traits_list : field d "personality_traits" = Arr traits;
  background_prints : ToString (field d "background") = Normal b;
  traits_print : ToString (Arr traits) = Normal t
}.

(** A run that leaves the chat and the console as they were. *)
Definition quiet (w w' : World) : Prop :=
  chat w' = chat w /\ console w' = console w.

Definition silent {A} (m : M A) : Prop :=
  forall w, quiet w (snd (m w)).

(** A run that either throws without a word, or returns after exactly one
    whisper to the game master; it logs nothing in either case. *)
Definition whispered_once (w : World) (r : Completion unit * World) : Prop :=
  match fst r with
  | Throw _ => quiet w (snd r)
  | Normal _ =>
      (exists text : string,
          chat (snd r) = (chat w ++ [("NPC Creator", ("/w gm " ++ text)%string)])%list)
      /\ console (snd r) = console w
  end.

Definition reporting (m : M unit) : Prop :=
  forall w, whispered_once w (m w).

(** The store accepts every write. *)
Definition accepting : Prop :=
  forall st type attributes, exists i, createObj_outcome h st type attributes = inr i.

(** A message that the handler takes as its command. *)
Definition addressed (msg : Msg) : Prop :=
  type msg = "api" /\ String.prefix "!create-npc" (content msg) = true.

End Script.

Notation "x <- m ;; k" := (bind m (fun x => k))
  (at level 61, m at next level, right associativity).
Notation "m ;;; k" := (bind m (fun _ => k))
  (at level 61, right associativity).

(** ** A concrete host, for running the script on examples *)

Module Fixture.

(** The numbers of the examples: naturals, and the fractions that the
    random generator draws, given by their base-36 digits. *)
Inductive num : Type :=
| Int (n : nat)
| Frac36 (digits : string).

Definition Val : Type := @JsVal num.

(** Only the two printings that the examples exercise. *)
Definition print_num (x : num) (radix : nat) : string :=
  match x with
  | Int n => if Nat.eqb radix 10 then Str.of_nat n else ""
  | Frac36 ds => if Nat.eqb radix 36 then "0." ++ ds else ""
  end.

Definition DQ : string := String "034"%char EmptyString.

Definition commas (ss : list string) : string := String.concat "," ss.

(** The JSON text of a value (strings of the examples need no escape). *)
Fixpoint stringify (v : Val) : string :=
  match v with
  | Undefined => "undefined"
  | Null => "null"
  | Bool b => if b then "true" else "false"
  | Num n => print_num n 10
  | Str s => DQ ++ s ++ DQ
  | Arr l => "[" ++ commas (map stringify l) ++ "]"
  | Obj ps =>
      "{" ++ commas (map (fun kv => DQ ++ fst kv ++ DQ ++ ":" ++ stringify (snd kv)) ps)
          ++ "}"
  end.

(** The decoder of the examples knows the texts of a corpus of values. *)
Definition parse_in (corpus : list Val) (text : string) : string + Val :=
  match find (fun v => String.eqb (stringify v) text) corpus with
  | Some v => inr v
  | None => inl "Unexpected token in JSON"
  end.

Definition wording (f : @Fault num) : string :=
  match f with
  | ReadOfNullish v p =>
      "Cannot read properties of " ++ stringify v ++ " (reading '" ++ p ++ "')"
  | NotAFunction callee => callee ++ " is not a function"
  | NotPrimitive => "Cannot convert object to primitive value"
  end.

Definition grak : Val :=
  Obj [ ("name", Str "Grak"); ("race", Str "Orc"); ("class", Str "Fighter");
        ("level", Num (Int 3));
        ("strength", Num (Int 16)); ("dexterity", Num (Int 12));
        ("constitution", Num (Int 14)); ("intelligence", Num (Int 8));
        ("wisdom", Num (Int 10)); ("charisma", Num (Int 9));
        ("actions", Arr [ Obj [ ("name", Str "Slam");
                                ("description", Str "2d6 bludgeoning") ] ]);
        ("background", Str "Former gladiator");
        ("personality_traits", Arr [ Str "Gruff"; Str "Loyal" ]);
        ("equipment", Arr [ Str "Axe"; Str "Shield" ]);
        ("skills", Arr [ Str "Athletics" ]);
        ("languages", Arr [ Str "Common"; Str "Orcish" ]);
        ("appearance", Str "Scarred and massive") ].

(** [grak] without its [wisdom]. *)
Definition grak_unwise : Val :=
  match grak with
  | Obj ps => Obj (filter (fun kv => negb (String.eqb (fst kv) "wisdom")) ps)
  | v => v
  end.

(** [grak] with one more key, [hasOwnProperty]. *)
Definition grak_shadowing : Val :=
  match grak with
  | Obj ps => Obj (ps ++ [("hasOwnProperty", Num (Int 0))])%list
  | v => v
  end.

(** A descriptor whose fields are all there and all falsy. *)
Definition falsy : Val :=
  Obj [ ("name", Str ""); ("race", Str ""); ("class", Str "");
        ("level", Num (Int 0));
        ("strength", Num (Int 0)); ("dexterity", Num (Int 0));
        ("constitution", Num (Int 0)); ("intelligence", Num (Int 0));
        ("wisdom", Num (Int 0)); ("charisma", Num (Int 0));
        ("actions", Arr []); ("background", Str "");
        ("personality_traits", Arr []); ("equipment", Arr []);
        ("skills", Arr []); ("languages", Arr []); ("appearance", Str "") ].

Definition corpus : list Val :=
  [ grak; grak_unwise; grak_shadowing; falsy; Null; Obj [];
    Obj [("hasOwnProperty", Num (Int 0))] ].

(** The [n]-th draw: a fraction whose base-36 digits start with [n]. *)
Definition draw (n : nat) : num := Frac36 (Str.of_nat n ++ "q7m2x9k4c1").

Definition next_id (st : list (@RObj num)) : string := "-N" ++ Str.of_nat (List.length st).

(** A host whose store accepts every write. *)
Definition host : Host :=
  mkHost (parse_in corpus) draw print_num wording
         (fun st _ _ => inr (next_id st)).


(** A host whose store rejects abilities. *)
Definition full_host : Host :=
  mkHost (parse_in corpus) draw print_num wording
         (fun st ty _ => if String.eqb ty "ability" then inl "store is full"
                         else inr (next_id st)).

Definition w0 : @World num := mkWorld [] [] [] 0.

Definition command (text : string) : Msg := mkMsg "api" text "-player1".

Definition create (v : Val) : Msg := command ("!create-npc " ++ stringify v).

End Fixture.


(** ** Further observations: ownership, white space, the event loop *)

(** A string of white space only. *)
Fixpoint all_space (s : string) : bool :=
  match s with
  | EmptyString => true
  | String c s' => Str.is_space c && all_space s'
  end.



Section Ownership.

Context {number : Type}.

Definition is_array (v : @JsVal number) : bool :=
  match v with
  | Arr _ => true
  | _ => false
  end.

(** An attribute or an ability whose [characterid] is [cid]. *)
Definition owned_by (cid : string) (o : @RObj number) : bool :=
  (is_attribute o || is_ability o)
  && match lookup "characterid" (props o) with
     | Some (Str c) => String.eqb c cid
     | _ => false
     end.

(** A run that leaves the records of the store in place and only adds
    records that satisfy [P]. *)
Definition adds {A} (P : @RObj number -> bool) (m : @M number A) : Prop :=
  forall w, exists news,
    store (snd (m w)) = (store w ++ news)%list /\ forallb P news = true.

(** Nothing, or a character followed by records that it owns. *)
Definition family (news : list (@RObj number)) : Prop :=
  news = []
  \/ exists c rest,
       news = c :: rest /\ is_character c = true
       /\ forallb (owned_by (id c)) rest = true.

End Ownership.

(** *** The event loop

    The script binds its callbacks with the host's [on].  It has two of
    them: the function bound to [ready] at load time, and [handleInput],
    which that function binds to [chat:message].  The host calls the
    callbacks bound to an event in the order in which they were bound. *)

Inductive Callback : Type :=
| ready_callback
| handleInput_callback.

Inductive Event : Type :=
| Ready
| ChatMessage (msg : Msg).

Definition event_name (e : Event) : string :=
  match e with
  | Ready => "ready"
  | ChatMessage _ => "chat:message"
  end.

Section EventLoop.

Context {number : Type}.
Variable h : @Host number.

Record Sandbox : Type := mkSandbox {
  handlers : list (string * Callback);   (* bindings, oldest first *)
  world : @World number
}.

Definition on (event : string) (callback : Callback) (s : Sandbox) : Sandbox :=
  mkSandbox (handlers s ++ [(event, callback)])%list (world s).

Definition registerEventHandlers (s : Sandbox) : Sandbox :=
  on "chat:message" handleInput_callback s.

(** A call of a callback.  Neither [log] nor [handleInput] throws, so the
    completion of the call is dropped. *)
Definition call (callback : Callback) (e : Event) (s : Sandbox) : Sandbox :=
  match callback with
  | ready_callback =>
      let s1 := registerEventHandlers s in
      mkSandbox (handlers s1) (snd (log "NPC Creation Script loaded" (world s1)))
  | handleInput_callback =>
      match e with
      | ChatMessage msg => mkSandbox (handlers s) (snd (handleInput h msg (world s)))
      | Ready => s
      end
  end.

(** The host fires an event: the callbacks bound to it at that moment run
    in the order of their binding. *)
Definition fire (e : Event) (s : Sandbox) : Sandbox :=
  fold_left (fun s' binding => call (snd binding) e s')
    (filter (fun binding => String.eqb (fst binding) (event_name e)) (handlers s))
    s.

(** The script, loaded in a world: its last statement binds [ready]. *)
Definition script (w : @World number) : Sandbox :=
  on "ready" ready_callback (mkSandbox [] w).

(** The bindings once [ready] has fired. *)
Definition bound : list (string * Callback) :=
  [("ready", ready_callback); ("chat:message", handleInput_callback)].

(** The host fires a chat event for each message of a list, in order. *)
Definition chat_session (msgs : list Msg) (s : Sandbox) : Sandbox :=
  fold_left (fun s' msg => fire (ChatMessage msg) s') msgs s.

End EventLoop.

(** *** More examples *)

Module Cases.

Import Fixture.

Definition with_field (k : string) (v : Val) (d : Val) : Val :=
  match d with
  | Obj ps => Obj (map (fun kv => if String.eqb (fst kv) k then (k, v) else kv) ps)
  | _ => d
  end.

(** Grak, his equipment given as one string. *)
Definition grak_sloppy : Val := with_field "equipment" (Str "Axe") grak.

(** Grak, his name given as an object that shadows [toString]. *)
Definition grak_unnamed : Val :=
  with_field "name" (Obj [("toString", Num (Int 0))]) grak.

(** Grak with a field that the script does not know. *)
Definition grak_aligned : Val :=
  match grak with
  | Obj ps => Obj (ps ++ [("alignment", Str "neutral")])%list
  | v => v
  end.

Definition corpus : list Val :=
  (Fixture.corpus
   ++ [ grak_sloppy; grak_unnamed; grak_aligned; Arr []; Num (Int 42) ])%list.

(** A host that knows these descriptors too; its store accepts every
    write. *)
Definition host : Host :=
  mkHost (parse_in corpus) draw print_num wording
         (fun st _ _ => inr (next_id st)).

(** A host whose store rejects every write. *)
Definition closed_host : Host :=
  mkHost (parse_in corpus) draw print_num wording
         (fun _ _ _ => inl "store is read-only").

End Cases.

(** * Properties *)

(** ** Facts on strings *)

Module StrFacts.

Lemma append_nil_r (s : string) : s ++ "" = s.
Proof. induction s as [|c s IH]; simpl; [reflexivity | now rewrite IH]. Qed.

Lemma append_assoc (a b c : string) : (a ++ b) ++ c = a ++ (b ++ c).
Proof. induction a as [|x a IH]; simpl; [reflexivity | now rewrite IH]. Qed.

Lemma rev_append (a b : string) : Str.rev (a ++ b) = Str.rev b ++ Str.rev a.
Proof.
  induction a as [|x a IH]; simpl.
  - now rewrite append_nil_r.
  - now rewrite IH, append_assoc.
Qed.

Lemma rev_involutive (s : string) : Str.rev (Str.rev s) = s.
Proof.
  induction s as [|c s IH]; simpl; [reflexivity|].
  rewrite rev_append, IH. reflexivity.
Qed.

Lemma strip_prefix_append (p t : string) : Str.strip_prefix p (p ++ t) = Some t.
Proof.
  induction p as [|c p IH]; simpl.
  - now destruct t.
  - now rewrite Ascii.eqb_refl.
Qed.

Lemma strip_suffix_append (q t : string) : Str.strip_suffix q (t ++ q) = Some t.
Proof.
  unfold Str.strip_suffix.
  rewrite rev_append, strip_prefix_append. simpl.
  now rewrite rev_involutive.
Qed.

(** With the command token in front, [replace] removes exactly it. *)
Lemma replace_prefix (pat s : string) :
  String.prefix pat s = true ->
  Str.replace pat "" s = Str.drop (String.length pat) s.
Proof. intros H. destruct s; simpl in *; rewrite H; reflexivity. Qed.

(** The decimal text of a number starts with a digit: it is no field name. *)
Lemma of_nat_not_name (i : nat) : String.eqb "name" (Str.of_nat i) = false.
Proof.
  unfold Str.of_nat, NilZero.string_of_uint.
  destruct (Nat.to_uint i); reflexivity.
Qed.

End StrFacts.

(** ** What the steps leave alone *)

Section Frames.

Context {number : Type}.
Variable h : @Host number.

Lemma quiet_refl (w : @World number) : quiet w w.
Proof. split; reflexivity. Qed.

Lemma quiet_trans (w1 w2 w3 : @World number) :
  quiet w1 w2 -> quiet w2 w3 -> quiet w1 w3.
Proof. intros [A B] [C D]. split; congruence. Qed.

Lemma silent_ret {A} (a : A) : silent (@ret number A a).
Proof. intros w. apply quiet_refl. Qed.

Lemma silent_lift {A} (c : Completion A) : silent (@lift number A c).
Proof. intros w. apply quiet_refl. Qed.

Lemma silent_bind {A B} (m : M A) (k : A -> M B) :
  silent m -> (forall a, silent (k a)) -> silent (@bind number A B m k).
Proof.
  intros Hm Hk w. unfold bind.
  specialize (Hm w). destruct (m w) as [[a|e] w1]; simpl in *.
  - eapply quiet_trans; [exact Hm | apply Hk].
  - exact Hm.
Qed.

Lemma silent_createObj (ty : string) (ps : Props) : silent (createObj h ty ps).
Proof.
  intros w. unfold createObj.
  destruct (createObj_outcome h (store w) ty ps); split; reflexivity.
Qed.

Lemma silent_generateRowID : silent (generateRowID h).
Proof. intros w. split; reflexivity. Qed.

Lemma silent_new_attribute (c : RObj) (n : string) (v : JsVal) :
  silent (new_attribute h c n v).
Proof.
  apply silent_bind; [apply silent_createObj | intros; apply silent_ret].
Qed.

Lemma silent_forEach_list {A} (f : A -> M unit) (l : list A) :
  (forall x, silent (f x)) -> silent (@forEach_list number A f l).
Proof.
  intros Hf. induction l as [|x l IH]; simpl.
  - apply silent_ret.
  - apply silent_bind; [apply Hf | intros; exact IH].
Qed.

Lemma silent_forEach (callee : string) (v : JsVal) (f : JsVal -> M unit) :
  (forall x, silent (f x)) -> silent (forEach h callee v f).
Proof.
  intros Hf. destruct v; simpl;
    try apply silent_lift. now apply silent_forEach_list.
Qed.

Lemma silent_entries (d : JsVal) (ks : list string) : silent (entries h d ks).
Proof.
  induction ks as [|k ks IH]; simpl.
  - apply silent_ret.
  - apply silent_bind.
    + apply silent_bind; [apply silent_lift | intros; apply silent_ret].
    + intros e. apply silent_bind; [exact IH | intros; apply silent_ret].
Qed.

Ltac silence :=
  repeat first
    [ apply silent_ret | apply silent_lift | apply silent_createObj
    | apply silent_generateRowID | apply silent_new_attribute
    | apply silent_entries
    | apply silent_forEach_list; intros
    | apply silent_forEach; intros
    | apply silent_bind; [|intros] ].

Lemma silent_addAttributesToCharacter (c : RObj) (d : JsVal) :
  silent (addAttributesToCharacter h c d).
Proof. unfold addAttributesToCharacter. silence. Qed.

Lemma silent_createActionsAbility (c : RObj) (a : JsVal) :
  silent (createActionsAbility h c a).
Proof. unfold createActionsAbility. silence. Qed.

Lemma silent_createBackgroundAbility (c : RObj) (d : JsVal) :
  silent (createBackgroundAbility h c d).
Proof. unfold createBackgroundAbility. silence. Qed.

Lemma reporting_sendChat (text : string) :
  reporting (@sendChat number "NPC Creator" ("/w gm " ++ text)).
Proof. intros w. split; [exists text|]; reflexivity. Qed.

Lemma reporting_bind {A} (m : M A) (k : A -> M unit) :
  silent m -> (forall a, reporting (k a)) -> reporting (@bind number A unit m k).
Proof.
  intros Hm Hk w. unfold whispered_once, bind.
  specialize (Hm w). destruct (m w) as [[a|e] w1]; simpl in *.
  - specialize (Hk a w1). unfold whispered_once in Hk.
    destruct Hm as [Hc Hl].
    destruct (fst (k a w1)).
    + rewrite <- Hc, <- Hl. exact Hk.
    + eapply quiet_trans; [split; eassumption | exact Hk].
  - exact Hm.
Qed.

(** Whatever the message, the body of the [try] block either throws
    before it has said anything, or returns after one whisper. *)
Lemma reporting_pipeline (msg : Msg) : reporting (pipeline h msg).
Proof.
  unfold pipeline.
  apply reporting_bind; [apply silent_lift | intros d].
  apply reporting_bind; [apply silent_lift | intros valid].
  destruct valid; simpl.
  - apply reporting_bind; [apply silent_lift | intros n].
    apply reporting_bind; [apply silent_createObj | intros c].
    apply reporting_bind; [apply silent_addAttributesToCharacter | intros _].
    apply reporting_bind; [apply silent_lift | intros a].
    apply reporting_bind; [apply silent_createActionsAbility | intros _].
    apply reporting_bind; [apply silent_createBackgroundAbility | intros _].
    apply reporting_bind; [apply silent_lift | intros n'].
    apply reporting_bind; [apply silent_lift | intros t].
    apply (reporting_sendChat ("NPC " ++ t ++ " has been created!")).
  - apply (reporting_sendChat
             "Error: Invalid NPC data format. Please check all required fields are present.").
Qed.

End Frames.

(** ** The handler: matching, decoding, validation, error reports *)

Section Handler.

Context {number : Type}.
Variable h : @Host number.

Lemma handleInput_addressed (msg : Msg) :
  addressed msg -> handleInput h msg = try_catch (pipeline h msg) report.
Proof.
  intros [Ht Hc]. unfold handleInput. rewrite Ht, Hc. reflexivity.
Qed.

Lemma handleInput_returns (msg : Msg) (w : World) :
  fst (handleInput h msg w) = Normal tt.
Proof.
  unfold handleInput.
  destruct (negb _ || negb _); [reflexivity|].
  unfold try_catch. destruct (pipeline h msg w) as [[[]|e] w1]; reflexivity.
Qed.

Lemma extract_decoded (c : string) (d : JsVal) :
  JSON_parse h (payload c) = inr d -> extractNPCData h c = Normal d.
Proof. intros H. unfold extractNPCData. fold (payload c). now rewrite H. Qed.

Lemma extract_failed (c m : string) :
  JSON_parse h (payload c) = inl m ->
  extractNPCData h c =
  Throw (Error ("Invalid JSON format. Please check your input. Error: " ++ m)).
Proof. intros H. unfold extractNPCData. fold (payload c). now rewrite H. Qed.

(** *** The validator *)

Lemma existsb_none {A} (f : A -> bool) (l : list A) :
  (forall x, f x = false) -> existsb f l = false.
Proof. intros H. induction l; simpl; [reflexivity | now rewrite H, IHl]. Qed.

Lemma name_not_index (n : nat) : index_or_length n "name" = false.
Proof.
  unfold index_or_length. simpl.
  apply existsb_none. intros i. apply StrFacts.of_nat_not_name.
Qed.

(** On an object that does not shadow [hasOwnProperty], the validator is
    the presence test of the required fields. *)
Lemma validate_plain (ps : Props) :
  has_key "hasOwnProperty" ps = false ->
  validateNPCData h (Obj ps) = Normal (forallb (fun k => has_key k ps) requiredFields).
Proof.
  intros Hs. unfold validateNPCData.
  induction requiredFields as [|k ks IH]; simpl in *; [reflexivity|].
  rewrite Hs in *. simpl. destruct (has_key k ps); simpl; [exact IH | reflexivity].
Qed.

(** A value with properties that is no object has no field [name]. *)
Lemma validate_not_object (d : JsVal) :
  coercible d = true -> (forall ps, d <> Obj ps) ->
  validateNPCData h d = Normal false.
Proof.
  intros Hc Hn. unfold validateNPCData, requiredFields.
  destruct d; try discriminate; simpl.
  - reflexivity.
  - reflexivity.
  - now rewrite name_not_index.
  - now rewrite name_not_index.
  - now elim (Hn properties).
Qed.

Lemma validate_true_inv (d : JsVal) :
  validateNPCData h d = Normal true ->
  exists ps, d = Obj ps /\ has_key "hasOwnProperty" ps = false
             /\ forallb (fun k => has_key k ps) requiredFields = true.
Proof.
  intros H. destruct d as [| |b|n|s|l|ps].
  1,2: discriminate H.
  1-4: rewrite validate_not_object in H;
       [discriminate H | reflexivity | intros ps; discriminate].
  exists ps. split; [reflexivity|].
  destruct (has_key "hasOwnProperty" ps) eqn:Hs.
  - unfold validateNPCData, requiredFields in H. simpl in H.
    rewrite Hs in H. discriminate H.
  - rewrite (validate_plain _ Hs) in H. split; [reflexivity | congruence].
Qed.

(** When the validator returns, its verdict is the presence of every
    required field as an own property. *)
Lemma validate_presence (d : JsVal) (verdict : bool) :
  validateNPCData h d = Normal verdict ->
  verdict = forallb (own_property d) requiredFields.
Proof.
  intros H. destruct d as [| |b|n|s|l|ps].
  1,2: discriminate H.
  1-4: rewrite validate_not_object in H;
       [|reflexivity | intros ps; discriminate];
       injection H as <-; unfold requiredFields; simpl;
       try rewrite name_not_index; reflexivity.
  destruct (has_key "hasOwnProperty" ps) eqn:Hs.
  - unfold validateNPCData, requiredFields in H. simpl in H.
    rewrite Hs in H. discriminate H.
  - rewrite (validate_plain _ Hs) in H. injection H as <-. reflexivity.
Qed.

(** *** A rejected descriptor *)

Lemma rejected_run (msg : Msg) (d : JsVal) (w : World) :
  addressed msg ->
  extractNPCData h (content msg) = Normal d ->
  validateNPCData h d = Normal false ->
  handleInput h msg w =
  (Normal tt,
   mkWorld (store w) (chat w ++ [("NPC Creator", validation_error)])
     (console w) (draws w)).
Proof.
  intros Ha Hd Hv. rewrite (handleInput_addressed _ Ha).
  unfold try_catch, pipeline, bind, lift. rewrite Hd, Hv. reflexivity.
Qed.

(** *** A run that throws *)

Lemma thrown_run (msg : Msg) (e : Exn) (w w1 : World) :
  addressed msg ->
  pipeline h msg w = (Throw e, w1) ->
  handleInput h msg w =
  (Normal tt,
   mkWorld (store w1)
     (chat w ++ [("NPC Creator", "/w gm Error creating NPC: " ++ message e)])
     (console w ++ ["NPC Creation Error: " ++ message e]) (draws w1)).
Proof.
  intros Ha Hp. rewrite (handleInput_addressed _ Ha).
  pose proof (reporting_pipeline h msg w) as Hq.
  unfold whispered_once in Hq. unfold try_catch. rewrite Hp in *.
  simpl in Hq. destruct Hq as [Hc Hl].
  unfold report, bind, sendChat, log. simpl. rewrite Hc, Hl. reflexivity.
Qed.

End Handler.

(** ** Materialization on an accepting store *)

Section Runs.

Context {number : Type}.
Variable h : @Host number.
Hypothesis accepts : accepting h.

Lemma bind_run {A B} (m : M A) (k : A -> M B) (a : A) (w w1 : @World number) :
  m w = (Normal a, w1) -> bind m k w = k a w1.
Proof. intros H. unfold bind. now rewrite H. Qed.

Lemma add_all_app (st : list RObj) (r1 r2 : list Request) :
  add_all h st (r1 ++ r2) = add_all h (add_all h st r1) r2.
Proof. apply fold_left_app. Qed.

Lemma add_all_cons (st : list RObj) (r : Request) (rs : list Request) :
  add_all h st (r :: rs) = add_all h (add h st r) rs.
Proof. reflexivity. Qed.

Lemma createObj_run (ty : string) (ps : Props) (w : World) :
  createObj h ty ps w =
  (Normal (mkObj ty (issued h (store w) ty ps) ps),
   mkWorld (add h (store w) (ty, ps)) (chat w) (console w) (draws w)).
Proof.
  unfold createObj, add. simpl. unfold issued.
  destruct (accepts (store w) ty ps) as [i Hi]. rewrite Hi. reflexivity.
Qed.

Lemma new_attribute_run (c : RObj) (n : string) (v : JsVal) (w : World) :
  new_attribute h c n v w =
  (Normal tt,
   mkWorld (add h (store w) (attribute_request (id c) n v))
     (chat w) (console w) (draws w)).
Proof.
  unfold new_attribute. erewrite bind_run by apply createObj_run. reflexivity.
Qed.

Lemma entries_run (ps : Props) (ks : list string) (w : World) :
  entries h (Obj ps) ks w = (Normal (map (fun k => (k, field (Obj ps) k)) ks), w).
Proof.
  induction ks as [|k ks IH]; simpl; [reflexivity|].
  unfold bind, entry, lift at 1, ret. simpl. rewrite IH. reflexivity.
Qed.

Lemma basic_run (c : RObj) (l : list (string * JsVal)) (w : World) :
  forEach_list (fun attr => new_attribute h c (fst attr) (snd attr)) l w =
  (Normal tt,
   mkWorld (add_all h (store w)
              (map (fun a => attribute_request (id c) (fst a) (snd a)) l))
     (chat w) (console w) (draws w)).
Proof.
  revert w. induction l as [|a l IH]; intros w; cbn [forEach_list map].
  - destruct w; reflexivity.
  - erewrite bind_run by apply new_attribute_run. rewrite IH. reflexivity.
Qed.

Lemma items_run (c : RObj) (group : string) (items : list JsVal) (w : World) :
  forEach_list (fun item =>
      row <- generateRowID h ;;
      new_attribute h c ("repeating_" ++ group ++ "_" ++ row ++ "_name") item)
    items w =
  (Normal tt,
   mkWorld (add_all h (store w) (repeating_requests h (id c) group (draws w) items))
     (chat w) (console w) (draws w + List.length items)).
Proof.
  revert w. induction items as [|x l IH]; intros w;
    cbn [forEach_list repeating_requests List.length].
  - rewrite Nat.add_0_r. destruct w; reflexivity.
  - erewrite bind_run.
    2:{ erewrite bind_run by reflexivity. apply new_attribute_run. }
    rewrite IH. cbn [store chat console draws].
    rewrite Nat.add_succ_r. reflexivity.
Qed.

Lemma Get_coercible (v : JsVal) (k : string) :
  coercible v = true -> Get h v k = Normal (field v k).
Proof. destruct v; simpl; intros; try discriminate; reflexivity. Qed.

Lemma actions_run (c : RObj) (actions : list JsVal) (w : World) :
  forallb coercible actions = true ->
  createActionsAbility h c (Arr actions) w =
  (Normal tt,
   mkWorld (add_all h (store w) (action_requests h (id c) (draws w) actions))
     (chat w) (console w) (draws w + 2 * List.length actions)).
Proof.
  unfold createActionsAbility. cbn [forEach].
  revert w. induction actions as [|a l IH]; intros w Hc;
    cbn [forEach_list action_requests List.length].
  - rewrite Nat.add_0_r. destruct w; reflexivity.
  - simpl in Hc. apply andb_prop in Hc. destruct Hc as [Ha Hl].
    erewrite bind_run.
    2:{ erewrite bind_run by reflexivity.
        unfold lift. erewrite bind_run by (rewrite (Get_coercible _ _ Ha); reflexivity).
        erewrite bind_run by apply new_attribute_run.
        erewrite bind_run by reflexivity.
        erewrite bind_run by (rewrite (Get_coercible _ _ Ha); reflexivity).
        apply new_attribute_run. }
    rewrite (IH _ Hl). cbn [store chat console draws add_all fold_left].
    replace (S (S (draws w)) + 2 * List.length l)
      with (draws w + 2 * S (List.length l)) by lia.
    reflexivity.
Qed.

Lemma join_any_separator (f : JsVal -> Completion string) (s1 s2 : string)
  (l : list (@JsVal number)) (t : string) :
  join_with f s1 l = Normal t -> exists j, join_with f s2 l = Normal j.
Proof.
  revert t. induction l as [|x r IH]; intros t H; cbn [join_with] in *.
  - now exists "".
  - destruct (match x with Undefined | Null => Normal "" | _ => f x end)
      as [s|e]; cbn [cbind] in *; [|discriminate H].
    destruct r as [|y r']; [now exists s|].
    destruct (join_with f s1 (y :: r')) as [u|e] eqn:Hu; [|discriminate H].
    destruct (IH u eq_refl) as [j Hj]. rewrite Hj. cbn [cbind]. now eexists.
Qed.

Lemma traits_join (traits : list JsVal) (t : string) :
  ToString h (Arr traits) = Normal t ->
  call_join h (Arr traits) ", " = Normal (joined_traits h traits).
Proof.
  intros H. cbn [ToString] in H.
  destruct (join_any_separator _ _ ", " _ _ H) as [j Hj].
  unfold call_join, joined_traits. now rewrite Hj.
Qed.

Lemma addAttributes_run (c : RObj) (ps : Props)
  (equipment skills languages traits : list JsVal) (t : string) (w : World) :
  field (Obj ps) "equipment" = Arr equipment ->
  field (Obj ps) "skills" = Arr skills ->
  field (Obj ps) "languages" = Arr languages ->
  field (Obj ps) "personality_traits" = Arr traits ->
  ToString h (Arr traits) = Normal t ->
  addAttributesToCharacter h c (Obj ps) w =
  (Normal tt,
   mkWorld
     (add_all h (store w)
        (field_requests h (id c) (Obj ps) (draws w) equipment skills languages
           (joined_traits h traits)))
     (chat w) (console w)
     (draws w + List.length equipment + List.length skills + List.length languages)).
Proof.
  intros He Hs Hl Ht Hp. unfold addAttributesToCharacter, field_requests.
  erewrite bind_run by apply entries_run.
  erewrite bind_run by apply entries_run.
  erewrite bind_run by apply basic_run.
  cbn [map forEach_list fst snd]. rewrite He, Hs, Hl. cbn [forEach].
  erewrite bind_run.
  2:{ erewrite bind_run by apply items_run.
      erewrite bind_run by apply items_run.
      erewrite bind_run by apply items_run.
      reflexivity. }
  cbn [store chat console draws].
  unfold lift at 1. erewrite bind_run by reflexivity.
  erewrite bind_run by apply new_attribute_run.
  unfold lift at 1. erewrite bind_run by reflexivity.
  erewrite bind_run by apply new_attribute_run.
  unfold lift at 1. erewrite bind_run by reflexivity.
  change (match lookup "personality_traits" ps with
          | Some x => x | None => Undefined end)
    with (field (Obj ps) "personality_traits").
  rewrite Ht.
  unfold lift at 1. erewrite bind_run by (rewrite (traits_join _ _ Hp); reflexivity).
  rewrite new_attribute_run. cbn [store chat console draws].
  rewrite !add_all_app. reflexivity.
Qed.

Lemma background_run (c : RObj) (ps : Props) (traits : list JsVal)
  (b t : string) (w : World) :
  field (Obj ps) "personality_traits" = Arr traits ->
  ToString h (field (Obj ps) "background") = Normal b ->
  ToString h (Arr traits) = Normal t ->
  createBackgroundAbility h c (Obj ps) w =
  (Normal tt,
   mkWorld (add h (store w) (ability_request (id c) (narrative b t)))
     (chat w) (console w) (draws w)).
Proof.
  intros Ht Hb Hp. unfold createBackgroundAbility.
  unfold lift at 1. erewrite bind_run by reflexivity.
  unfold lift at 1. erewrite bind_run by (unfold field in Hb; rewrite Hb; reflexivity).
  unfold lift at 1. erewrite bind_run by reflexivity.
  unfold lift at 1.
  erewrite bind_run by (unfold field in Ht; rewrite Ht, Hp; reflexivity).
  erewrite bind_run by apply createObj_run.
  unfold ability_request, narrative.
  rewrite !StrFacts.append_assoc. reflexivity.
Qed.

(** The creation steps of the pipeline on a well-typed descriptor: what is
    left is the report of success. *)
Lemma pipeline_run (msg : Msg) (d : JsVal)
  (equipment skills languages actions traits : list JsVal) (b t : string)
  (w : World) :
  JSON_parse h (payload (content msg)) = inr d ->
  WellTyped h d equipment skills languages actions traits b t ->
  pipeline h msg w =
  (n <- lift (ToString h (field d "name")) ;;
   sendChat "NPC Creator" ("/w gm NPC " ++ n ++ " has been created!"))
    (mkWorld
       (add_all h (store w)
          (materialization h (store w) (draws w) (playerid msg) d
             equipment skills languages actions traits b t))
       (chat w) (console w)
       (draws w + List.length equipment + List.length skills
        + List.length languages + 2 * List.length actions)).
Proof.
  intros Hd [Hv He Hs Hl Ha Hc Ht Hb Hp].
  destruct (validate_true_inv h d Hv) as (ps & -> & _ & _).
  unfold pipeline, materialization.
  unfold lift at 1. erewrite bind_run by (rewrite (extract_decoded h _ _ Hd); reflexivity).
  unfold lift at 1. erewrite bind_run by (rewrite Hv; reflexivity).
  cbn [negb].
  unfold lift at 1. erewrite bind_run by reflexivity.
  erewrite bind_run by apply createObj_run.
  erewrite bind_run by (eapply addAttributes_run; eassumption).
  unfold lift at 1. erewrite bind_run by reflexivity.
  change (match lookup "actions" ps with Some x => x | None => Undefined end)
    with (field (Obj ps) "actions").
  rewrite Ha.
  erewrite bind_run by (apply actions_run; assumption).
  erewrite bind_run by (eapply background_run; eassumption).
  unfold lift at 1. erewrite bind_run by reflexivity.
  cbn [store chat console draws id]. cbv zeta.
  rewrite add_all_cons, !add_all_app. reflexivity.
Qed.

(** One command on a well-typed descriptor: the handler returns, and the
    store has accepted the whole materialization. *)
Lemma materialized (msg : Msg) (d : JsVal)
  (equipment skills languages actions traits : list JsVal) (b t : string)
  (w : World) :
  addressed msg ->
  JSON_parse h (payload (content msg)) = inr d ->
  WellTyped h d equipment skills languages actions traits b t ->
  exists w',
    handleInput h msg w = (Normal tt, w')
    /\ store w' =
       add_all h (store w)
         (materialization h (store w) (draws w) (playerid msg) d
            equipment skills languages actions traits b t)
    /\ draws w' =
       draws w + List.length equipment + List.length skills
       + List.length languages + 2 * List.length actions.
Proof.
  intros Hm Hd Hw. rewrite (handleInput_addressed h _ Hm).
  unfold try_catch. rewrite (pipeline_run _ _ _ _ _ _ _ _ _ _ Hd Hw).
  unfold bind, lift.
  destruct (ToString h (field d "name")) as [n|e]; eexists;
    (split; [reflexivity | split; reflexivity]).
Qed.

End Runs.

(** ** Kinds and rows of the records of a materialization *)

Section Kinds.

Context {number : Type}.
Variable h : @Host number.

Lemma add_all_news (rs : list Request) (st : list RObj) :
  exists news, add_all h st rs = (st ++ news)%list /\ map request_of news = rs.
Proof.
  revert st. induction rs as [|r rs IH]; intros st.
  - exists []. split; [symmetry; apply app_nil_r | reflexivity].
  - destruct (IH (add h st r)) as (news & Hs & Hm).
    exists (mkObj (fst r) (issued h st (fst r) (snd r)) (snd r) :: news).
    split.
    + cbn [add_all fold_left]. fold (add_all h (add h st r) rs).
      rewrite Hs. unfold add. now rewrite <- app_assoc.
    + cbn [map]. rewrite Hm. now destruct r.
Qed.

Lemma count_by_request (P : @RObj number -> bool) (news : list RObj) :
  (forall o, P o = P (blank (request_of o))) ->
  count P news = tally P (map request_of news).
Proof.
  intros HP. unfold tally, count.
  induction news as [|o l IH]; cbn [map filter]; [reflexivity|].
  rewrite <- HP. destruct (P o); cbn [List.length]; now rewrite IH.
Qed.

Lemma tally_app (P : @RObj number -> bool) (a b : list Request) :
  tally P (a ++ b) = tally P a + tally P b.
Proof. unfold tally, count. now rewrite map_app, filter_app, length_app. Qed.

Lemma tally_all (P : @RObj number -> bool) (l : list Request) :
  Forall (fun r => P (blank r) = true) l -> tally P l = List.length l.
Proof.
  unfold tally, count. induction 1 as [|r l Hr _ IH]; cbn [map filter]; [reflexivity|].
  rewrite Hr. cbn [List.length]. now rewrite IH.
Qed.

Lemma tally_none (P : @RObj number -> bool) (l : list Request) :
  Forall (fun r => P (blank r) = false) l -> tally P l = 0.
Proof.
  unfold tally, count. induction 1 as [|r l Hr _ IH]; cbn [map filter]; [reflexivity|].
  now rewrite Hr.
Qed.

(** The kinds exclude one another. *)
Lemma field_not_action (o : @RObj number) :
  is_field_attribute o = true -> is_action_attribute o = false.
Proof.
  unfold is_field_attribute, is_action_attribute.
  destruct (attribute_name o); [|discriminate].
  now destruct (String.prefix _ _).
Qed.

Lemma action_not_field (o : @RObj number) :
  is_action_attribute o = true -> is_field_attribute o = false.
Proof.
  unfold is_field_attribute, is_action_attribute.
  destruct (attribute_name o); [|discriminate].
  now destruct (String.prefix _ _).
Qed.

Lemma named_is_attribute (o : @RObj number) (n : string) :
  attribute_name o = Some n -> obj_type o = "attribute".
Proof.
  unfold attribute_name.
  destruct (String.eqb_spec (obj_type o) "attribute"); [auto | discriminate].
Qed.

Lemma field_is_attribute (o : @RObj number) :
  is_field_attribute o = true -> obj_type o = "attribute".
Proof.
  unfold is_field_attribute. destruct (attribute_name o) eqn:E; [|discriminate].
  intros _. eapply named_is_attribute; eassumption.
Qed.

Lemma action_is_attribute (o : @RObj number) :
  is_action_attribute o = true -> obj_type o = "attribute".
Proof.
  unfold is_action_attribute. destruct (attribute_name o) eqn:E; [|discriminate].
  intros _. eapply named_is_attribute; eassumption.
Qed.

Lemma attribute_other_kinds (o : @RObj number) :
  obj_type o = "attribute" -> is_character o = false /\ is_ability o = false.
Proof. unfold is_character, is_ability. intros ->. split; reflexivity. Qed.

(** *** The kind of each request *)

Lemma named_field (cid n : string) (v : @JsVal number) :
  String.prefix "repeating_npcaction_" n = false ->
  is_field_attribute (blank (attribute_request cid n v)) = true.
Proof. intros H. unfold is_field_attribute. simpl. now rewrite H. Qed.

Lemma named_action (cid x : string) (v : @JsVal number) :
  is_action_attribute
    (blank (attribute_request cid ("repeating_npcaction_" ++ x) v)) = true.
Proof. unfold is_action_attribute. simpl. now destruct x. Qed.

Lemma repeating_kind (cid group : string) (items : list JsVal) (n : nat) :
  (forall x, String.prefix "repeating_npcaction_"
               ("repeating_" ++ group ++ "_" ++ x) = false) ->
  Forall (fun r => is_field_attribute (blank r) = true)
    (repeating_requests h cid group n items).
Proof.
  intros Hg. revert n.
  induction items as [|x l IH]; intros n; cbn [repeating_requests]; constructor.
  - apply named_field, Hg.
  - apply IH.
Qed.

Lemma repeating_length (cid group : string) (items : list JsVal) (n : nat) :
  List.length (repeating_requests h cid group n items) = List.length items.
Proof.
  revert n. induction items as [|x l IH]; intros n; simpl; [reflexivity|].
  now rewrite IH.
Qed.

Lemma action_kind (cid : string) (actions : list JsVal) (n : nat) :
  Forall (fun r => is_action_attribute (blank r) = true)
    (action_requests h cid n actions).
Proof.
  revert n.
  induction actions as [|a l IH]; intros n; cbn [action_requests];
    repeat constructor.
  - apply named_action.
  - apply named_action.
  - apply IH.
Qed.

Lemma action_length (cid : string) (actions : list JsVal) (n : nat) :
  List.length (action_requests h cid n actions) = 2 * List.length actions.
Proof.
  revert n. induction actions as [|a l IH]; intros n; simpl; [reflexivity|].
  rewrite IH. lia.
Qed.

Lemma field_kind (cid : string) (d : JsVal) (n : nat)
  (equipment skills languages : list JsVal) (joined : string) :
  Forall (fun r => is_field_attribute (blank r) = true)
    (field_requests h cid d n equipment skills languages joined).
Proof.
  unfold field_requests. rewrite !Forall_app. repeat split.
  - unfold basic_requests. cbn [map]. repeat constructor.
  - apply repeating_kind. reflexivity.
  - apply repeating_kind. reflexivity.
  - apply repeating_kind. reflexivity.
  - repeat constructor.
Qed.

Lemma field_length (cid : string) (d : JsVal) (n : nat)
  (equipment skills languages : list JsVal) (joined : string) :
  List.length (field_requests h cid d n equipment skills languages joined) =
  12 + List.length equipment + List.length skills + List.length languages.
Proof.
  unfold field_requests, basic_requests.
  rewrite !length_app, !repeating_length. cbn [map List.length]. lia.
Qed.

Lemma materialization_parts (st : list RObj) (n : nat) (player : string)
  (d : JsVal) (equipment skills languages actions traits : list JsVal)
  (b t : string) :
  materialization h st n player d equipment skills languages actions traits b t =
  ([character_request d player]
   ++ field_requests h (character_id h st d player) d n equipment skills languages
        (joined_traits h traits)
   ++ action_requests h (character_id h st d player)
        (n + List.length equipment + List.length skills + List.length languages)
        actions
   ++ [ability_request (character_id h st d player) (narrative b t)])%list.
Proof. reflexivity. Qed.

Lemma fields_are (P : @RObj number -> bool) (cid : string) (d : JsVal) (n : nat)
  (equipment skills languages : list JsVal) (joined : string) :
  (forall o, is_field_attribute o = true -> P o = false) ->
  tally P (field_requests h cid d n equipment skills languages joined) = 0.
Proof.
  intros HP. apply tally_none.
  eapply Forall_impl; [|apply field_kind]. intros r Hr. now apply HP.
Qed.

Lemma acts_are (P : @RObj number -> bool) (cid : string) (n : nat)
  (actions : list JsVal) :
  (forall o, is_action_attribute o = true -> P o = false) ->
  tally P (action_requests h cid n actions) = 0.
Proof.
  intros HP. apply tally_none.
  eapply Forall_impl; [|apply action_kind]. intros r Hr. now apply HP.
Qed.

Section Tally.

Variables (st : list (@RObj number)) (n : nat) (player : string) (d : @JsVal number).
Variables (equipment skills languages actions traits : list (@JsVal number)).
Variables (b t : string).

Lemma tally_character :
  tally is_character
    (materialization h st n player d equipment skills languages actions traits b t)
  = 1.
Proof.
  rewrite materialization_parts, !tally_app.
  rewrite fields_are, acts_are; [reflexivity | |].
  - intros o Ho. now apply attribute_other_kinds, action_is_attribute.
  - intros o Ho. now apply attribute_other_kinds, field_is_attribute.
Qed.

Lemma tally_ability :
  tally is_ability
    (materialization h st n player d equipment skills languages actions traits b t)
  = 1.
Proof.
  rewrite materialization_parts, !tally_app.
  rewrite fields_are, acts_are; [reflexivity | |].
  - intros o Ho. now apply attribute_other_kinds, action_is_attribute.
  - intros o Ho. now apply attribute_other_kinds, field_is_attribute.
Qed.

Lemma tally_fields :
  tally is_field_attribute
    (materialization h st n player d equipment skills languages actions traits b t)
  = 12 + List.length equipment + List.length skills + List.length languages.
Proof.
  rewrite materialization_parts, !tally_app.
  rewrite (tally_all _ (field_requests _ _ _ _ _ _ _ _)) by apply field_kind.
  rewrite acts_are by apply action_not_field.
  rewrite field_length.
  change (tally is_field_attribute [character_request d player]) with 0.
  change (tally is_field_attribute [ability_request ?[c] (narrative b t)]) with 0.
  lia.
Qed.

Lemma tally_actions :
  tally is_action_attribute
    (materialization h st n player d equipment skills languages actions traits b t)
  = 2 * List.length actions.
Proof.
  rewrite materialization_parts, !tally_app.
  rewrite (tally_all _ (action_requests _ _ _ _)) by apply action_kind.
  rewrite fields_are by apply field_not_action.
  rewrite action_length.
  change (tally is_action_attribute [character_request d player]) with 0.
  change (tally is_action_attribute [ability_request ?[c] (narrative b t)]) with 0.
  lia.
Qed.

End Tally.

End Kinds.

(** ** Row discriminators *)

Section Rows.

Context {number : Type}.
Variable h : @Host number.

Lemma rows_by_request (g : string) (news : list (@RObj number)) :
  rows g news = rows g (map blank (map request_of news)).
Proof.
  unfold rows. induction news as [|o l IH]; cbn [map flat_map]; [reflexivity|].
  rewrite IH. now destruct o.
Qed.

Lemma rows_app (g : string) (a b : list (@RObj number)) :
  rows g (a ++ b) = (rows g a ++ rows g b)%list.
Proof. apply flat_map_app. Qed.

Lemma attribute_name_request (cid n : string) (v : @JsVal number) :
  attribute_name (blank (attribute_request cid n v)) = Some n.
Proof. reflexivity. Qed.

Lemma row_of_own (cid g x suffix : string) (v : @JsVal number) :
  row_of g suffix
    (blank (attribute_request cid ("repeating_" ++ g ++ "_" ++ x ++ "_" ++ suffix) v))
  = Some x.
Proof.
  unfold row_of. rewrite attribute_name_request.
  replace ("repeating_" ++ g ++ "_" ++ x ++ "_" ++ suffix)
    with (("repeating_" ++ g ++ "_") ++ (x ++ "_" ++ suffix))
    by now rewrite !StrFacts.append_assoc.
  rewrite StrFacts.strip_prefix_append.
  apply StrFacts.strip_suffix_append.
Qed.

Lemma row_of_foreign (cid g n suffix : string) (v : @JsVal number) :
  Str.strip_prefix ("repeating_" ++ g ++ "_") n = None ->
  row_of g suffix (blank (attribute_request cid n v)) = None.
Proof.
  intros H. unfold row_of. rewrite attribute_name_request. now rewrite H.
Qed.

(** A record whose name ends in [_description] has no row under the
    suffix [_name]. *)
Lemma row_of_description (cid g x : string) (v : @JsVal number) :
  row_of g "name"
    (blank (attribute_request cid ("repeating_" ++ g ++ "_" ++ x ++ "_description") v))
  = None.
Proof.
  unfold row_of. rewrite attribute_name_request.
  replace ("repeating_" ++ g ++ "_" ++ x ++ "_description")
    with (("repeating_" ++ g ++ "_") ++ (x ++ "_description"))
    by now rewrite !StrFacts.append_assoc.
  rewrite StrFacts.strip_prefix_append.
  unfold Str.strip_suffix. rewrite (StrFacts.rev_append x). reflexivity.
Qed.

Lemma rows_repeating_own (cid g : string) (items : list JsVal) (n : nat) :
  rows g (map blank (repeating_requests h cid g n items)) =
  map (rowid h) (seq n (List.length items)).
Proof.
  revert n. induction items as [|x l IH]; intros n; [reflexivity|].
  cbn [repeating_requests map List.length seq]. unfold rows at 1.
  cbn [flat_map]. fold (rows g (map blank (repeating_requests h cid g (S n) l))).
  rewrite IH.
  rewrite (row_of_own cid g (rowid h n) "name"). reflexivity.
Qed.

Lemma rows_repeating_foreign (cid g g' : string) (items : list JsVal) (n : nat) :
  (forall x, Str.strip_prefix ("repeating_" ++ g ++ "_")
               ("repeating_" ++ g' ++ "_" ++ x) = None) ->
  rows g (map blank (repeating_requests h cid g' n items)) = [].
Proof.
  intros Hg. revert n. induction items as [|x l IH]; intros n; [reflexivity|].
  cbn [repeating_requests map]. unfold rows at 1.
  cbn [flat_map]. fold (rows g (map blank (repeating_requests h cid g' (S n) l))).
  rewrite IH, !row_of_foreign by apply Hg. reflexivity.
Qed.

Lemma rows_actions_own (cid : string) (actions : list JsVal) (n : nat) :
  rows "npcaction" (map blank (action_requests h cid n actions)) =
  map (rowid h) (seq n (2 * List.length actions)).
Proof.
  revert n. induction actions as [|a l IH]; intros n; [reflexivity|].
  replace (2 * List.length (a :: l)) with (S (S (2 * List.length l)))
    by (cbn [List.length]; lia).
  cbn [action_requests map seq]. unfold rows at 1.
  cbn [flat_map]. fold (rows "npcaction" (map blank (action_requests h cid (S (S n)) l))).
  rewrite IH.
  rewrite (row_of_own cid "npcaction" (rowid h n) "name").
  rewrite (row_of_description cid "npcaction" (rowid h (S n))).
  rewrite (row_of_own cid "npcaction" (rowid h (S n)) "description").
  reflexivity.
Qed.

Lemma rows_actions_foreign (cid g : string) (actions : list JsVal) (n : nat) :
  (forall x, Str.strip_prefix ("repeating_" ++ g ++ "_")
               ("repeating_npcaction_" ++ x) = None) ->
  rows g (map blank (action_requests h cid n actions)) = [].
Proof.
  intros Hg. revert n. induction actions as [|a l IH]; intros n; [reflexivity|].
  cbn [action_requests map]. unfold rows at 1.
  cbn [flat_map]. fold (rows g (map blank (action_requests h cid (S (S n)) l))).
  rewrite IH, !row_of_foreign by apply Hg. reflexivity.
Qed.

Lemma rows_character (g : string) (d : @JsVal number) (player : string) :
  rows g [blank (character_request d player)] = [].
Proof. reflexivity. Qed.

Lemma rows_ability (g cid text : string) :
  rows g [blank (@ability_request number cid text)] = [].
Proof. reflexivity. Qed.

Lemma rows_fields (cid : string) (d : JsVal) (n : nat)
  (equipment skills languages : list JsVal) (joined : string) :
  let rs := map blank (field_requests h cid d n equipment skills languages joined) in
  rows "equipment" rs = map (rowid h) (seq n (List.length equipment))
  /\ rows "skills" rs =
     map (rowid h) (seq (n + List.length equipment) (List.length skills))
  /\ rows "languages" rs =
     map (rowid h) (seq (n + List.length equipment + List.length skills)
                      (List.length languages))
  /\ rows "npcaction" rs = [].
Proof.
  unfold field_requests. cbv zeta. rewrite !map_app, !rows_app.
  rewrite !rows_repeating_own.
  rewrite !rows_repeating_foreign by reflexivity.
  cbn [app]. rewrite !app_nil_r. repeat split; reflexivity.
Qed.

Lemma rows_materialization (st : list RObj) (n : nat) (player : string)
  (d : JsVal) (equipment skills languages actions traits : list JsVal)
  (b t : string) :
  all_rows
    (map blank
       (materialization h st n player d equipment skills languages actions traits b t))
  = map (rowid h)
      (seq n (List.length equipment + List.length skills + List.length languages
              + 2 * List.length actions)).
Proof.
  rewrite materialization_parts. unfold all_rows.
  rewrite !map_app, !rows_app.
  destruct (rows_fields (character_id h st d player) d n
              equipment skills languages (joined_traits h traits))
    as (He & Hs & Hl & Ha).
  cbv zeta in He, Hs, Hl, Ha. rewrite He, Hs, Hl, Ha.
  rewrite rows_actions_own.
  rewrite !rows_actions_foreign by reflexivity.
  cbn [map]. rewrite !rows_character, !rows_ability.
  cbn [app]. rewrite !app_nil_r.
  rewrite !seq_app, !map_app, <- !app_assoc, !Nat.add_assoc. reflexivity.
Qed.

End Rows.

(** * The properties of the specification *)

Import Fixture.

(** ** Which messages are handled *)

(** C9. A message that is not of type [api], or whose content does not
    begin with [!create-npc], is ignored: the handler returns and the store,
    the chat, the console and the generator are as they were. *)
Theorem unaddressed_ignored {number : Type} (h : @Host number) (msg : Msg)
  (w : World) :
  type msg <> "api" \/ String.prefix "!create-npc" (content msg) = false ->
  handleInput h msg w = (Normal tt, w).
Proof.
  intros [Ht | Hc]; unfold handleInput.
  - apply String.eqb_neq in Ht. now rewrite Ht.
  - rewrite Hc. now rewrite orb_true_r.
Qed.

Lemma unaddressed_ignored_witness :
  handleInput host (mkMsg "general" "!create-npc null" "-player1") w0 = (Normal tt, w0)
  /\ handleInput host (command "hello !create-npc {}") w0 = (Normal tt, w0).
Proof.
  split.
  - apply (unaddressed_ignored host (mkMsg "general" "!create-npc null" "-player1") w0).
    left. discriminate.
  - apply (unaddressed_ignored host (command "hello !create-npc {}") w0).
    right. reflexivity.
Defined.

(** ** Malformed payloads *)

(** C3. When the decoder rejects the payload of a command with a message
    [m], the handler creates nothing and sends exactly one whisper, which
    carries [m] (it also logs the error once). *)
Theorem invalid_json_reported {number : Type} (h : @Host number) (msg : Msg)
  (m : string) (w : World) :
  addressed msg ->
  JSON_parse h (payload (content msg)) = inl m ->
  handleInput h msg w =
  (Normal tt,
   mkWorld (store w)
     (chat w ++ [("NPC Creator",
                  "/w gm Error creating NPC: Invalid JSON format. "
                  ++ "Please check your input. Error: " ++ m)])
     (console w ++ ["NPC Creation Error: Invalid JSON format. "
                    ++ "Please check your input. Error: " ++ m])
     (draws w)).
Proof.
  intros Ha Hp.
  rewrite (thrown_run h msg
             (Error ("Invalid JSON format. Please check your input. Error: " ++ m))
             w w Ha).
  - reflexivity.
  - unfold pipeline, bind, lift. now rewrite (extract_failed h _ _ Hp).
Qed.

Lemma invalid_json_reported_witness :
  handleInput host (command "!create-npc {oops") w0 =
  (Normal tt,
   mkWorld []
     [("NPC Creator",
       "/w gm Error creating NPC: Invalid JSON format. Please check your input. Error: Unexpected token in JSON")]
     ["NPC Creation Error: Invalid JSON format. Please check your input. Error: Unexpected token in JSON"]
     0).
Proof.
  apply (invalid_json_reported host (command "!create-npc {oops")
           "Unexpected token in JSON" w0).
  - split; reflexivity.
  - reflexivity.
Defined.

(** C10. The handler returns normally on every message.  When the payload
    decodes to [null], the validator's [data.hasOwnProperty] throws a
    TypeError inside the [try] block: the handler creates nothing, sends
    one whisper, which is the creation error and not the validation
    message, and logs once. *)
Theorem null_payload_caught {number : Type} (h : @Host number) (msg : Msg)
  (w : World) :
  JSON_parse h "null" = inr Null ->
  fst (handleInput h msg w) = Normal tt
  /\ (let m := TypeError_message h (ReadOfNullish Null "hasOwnProperty") in
      handleInput h (mkMsg "api" "!create-npc null" (playerid msg)) w =
      (Normal tt,
       mkWorld (store w)
         (chat w ++ [("NPC Creator", "/w gm Error creating NPC: " ++ m)])
         (console w ++ ["NPC Creation Error: " ++ m]) (draws w))
      /\ "/w gm Error creating NPC: " ++ m <> validation_error).
Proof.
  intros Hn. split; [apply handleInput_returns|]. cbv zeta. split.
  - apply (thrown_run h (mkMsg "api" "!create-npc null" (playerid msg))
             (TypeError (TypeError_message h (ReadOfNullish Null "hasOwnProperty")))
             w w).
    + split; reflexivity.
    + unfold pipeline, bind, lift. cbn [content].
      rewrite (extract_decoded h "!create-npc null" Null Hn). reflexivity.
  - discriminate.
Qed.

Lemma null_payload_caught_witness :
  fst (handleInput host (create grak) w0) = Normal tt
  /\ handleInput host (command "!create-npc null") w0 =
     (Normal tt,
      mkWorld []
        [("NPC Creator",
          "/w gm Error creating NPC: Cannot read properties of null (reading 'hasOwnProperty')")]
        ["NPC Creation Error: Cannot read properties of null (reading 'hasOwnProperty')"]
        0).
Proof.
  destruct (null_payload_caught host (create grak) w0) as [Hr [Hn _]].
  - reflexivity.
  - split; [exact Hr | exact Hn].
Defined.

(** ** Errors *)

Lemma whisper_prefix (text : string) : String.prefix "/w gm " ("/w gm " ++ text) = true.
Proof. now destruct text. Qed.

(** C5, as the script has it.  On a command, the handler returns normally
    and says exactly one thing in the chat, a whisper to the game master.
    An exception of the pipeline (format error, rejected write, TypeError)
    becomes that whisper plus one log entry.  A descriptor that fails the
    validation is reported by that whisper alone: nothing is logged. *)
Theorem errors_reported_privately {number : Type} (h : @Host number) (msg : Msg)
  (w : World) :
  addressed msg ->
  fst (handleInput h msg w) = Normal tt
  /\ (exists said,
        chat (snd (handleInput h msg w)) = (chat w ++ [said])%list
        /\ is_whisper said = true)
  /\ (forall e w1,
        pipeline h msg w = (Throw e, w1) ->
        chat (snd (handleInput h msg w)) =
          (chat w
           ++ [("NPC Creator", ("/w gm Error creating NPC: " ++ message e)%string)])%list
        /\ console (snd (handleInput h msg w)) =
          (console w ++ [("NPC Creation Error: " ++ message e)%string])%list)
  /\ (forall d,
        extractNPCData h (content msg) = Normal d ->
        validateNPCData h d = Normal false ->
        handleInput h msg w =
        (Normal tt,
         mkWorld (store w) (chat w ++ [("NPC Creator", validation_error)])
           (console w) (draws w))).
Proof.
  intros Ha. split; [apply handleInput_returns|]. split; [|split].
  - destruct (pipeline h msg w) as [[[]|e] w1] eqn:Hp.
    + pose proof (reporting_pipeline h msg w) as Hq.
      unfold whispered_once in Hq. rewrite Hp in Hq.
      destruct Hq as [[text Hc] _]. simpl in Hc.
      rewrite (handleInput_addressed h _ Ha). unfold try_catch. rewrite Hp.
      exists ("NPC Creator", "/w gm " ++ text). split; [exact Hc|].
      apply whisper_prefix.
    + rewrite (thrown_run h msg e w w1 Ha Hp).
      eexists. split; reflexivity.
  - intros e w1 Hp. rewrite (thrown_run h msg e w w1 Ha Hp). split; reflexivity.
  - intros d Hd Hv. now apply rejected_run with (d := d).
Qed.

Lemma errors_reported_privately_witness :
  (chat (snd (handleInput full_host (create grak) w0)) =
     [("NPC Creator", "/w gm Error creating NPC: store is full")]
   /\ console (snd (handleInput full_host (create grak) w0)) =
     ["NPC Creation Error: store is full"])
  /\ handleInput host (create grak_unwise) w0 =
     (Normal tt, mkWorld [] [("NPC Creator", validation_error)] [] 0).
Proof.
  split.
  - destruct (errors_reported_privately full_host (create grak) w0)
      as (_ & _ & Hthrown & _).
    + split; reflexivity.
    + apply (Hthrown (StoreError "store is full")
               (snd (pipeline full_host (create grak) w0))).
      vm_compute. reflexivity.
  - destruct (errors_reported_privately host (create grak_unwise) w0)
      as (_ & _ & _ & Hrejected).
    + split; reflexivity.
    + apply (Hrejected grak_unwise); vm_compute; reflexivity.
Defined.

(** C5 as stated fails on the validation error: the descriptor without
    [wisdom] is rejected with a whisper, and the console stays empty. *)
Lemma validation_failure_not_logged :
  extractNPCData host (content (create grak_unwise)) = Normal grak_unwise
  /\ validateNPCData host grak_unwise = Normal false
  /\ chat (snd (handleInput host (create grak_unwise) w0)) =
     [("NPC Creator", validation_error)]
  /\ console (snd (handleInput host (create grak_unwise) w0)) = [].
Proof. vm_compute. repeat split. Qed.

(** ** The validator *)

Section Validator.

Context {number : Type}.
Variable h : @Host number.

(** On every value with properties that does not shadow [hasOwnProperty],
    the validator returns whether all required fields are own properties,
    whatever their values. *)
Lemma validate_unshadowed (d : JsVal) :
  coercible d = true -> shadows d = false ->
  validateNPCData h d = Normal (forallb (own_property d) requiredFields).
Proof.
  intros Hc Hs. destruct d as [| |b|n|s|l|ps]; try discriminate Hc.
  1-4: rewrite validate_not_object;
       [|reflexivity | intros ps; discriminate];
       unfold requiredFields; simpl; try rewrite name_not_index; reflexivity.
  apply validate_plain. exact Hs.
Qed.

(** A command whose descriptor does not shadow [hasOwnProperty] and misses
    a required field creates nothing and gets the validation whisper. *)
Lemma missing_field_rejected (msg : Msg) (d : JsVal) (w : World) :
  addressed msg ->
  JSON_parse h (payload (content msg)) = inr d ->
  coercible d = true -> shadows d = false ->
  forallb (own_property d) requiredFields = false ->
  handleInput h msg w =
  (Normal tt,
   mkWorld (store w) (chat w ++ [("NPC Creator", validation_error)])
     (console w) (draws w)).
Proof.
  intros Ha Hd Hc Hs Hm.
  apply rejected_run with (d := d); [assumption | now apply extract_decoded |].
  rewrite validate_unshadowed by assumption. now rewrite Hm.
Qed.

End Validator.

(** A descriptor whose fields are all falsy passes the validator. *)
Lemma falsy_accepted : validateNPCData host falsy = Normal true.
Proof. reflexivity. Qed.

(** C6 at a descriptor that has every required field and also a key
    [hasOwnProperty]: the validator does not answer, it throws, and the
    handler reports a creation error. *)
Theorem shadowed_descriptor_not_validated :
  forallb (own_property grak_shadowing) requiredFields = true
  /\ validateNPCData host grak_shadowing =
     Throw (TypeError "data.hasOwnProperty is not a function")
  /\ handleInput host (create grak_shadowing) w0 =
     (Normal tt,
      mkWorld []
        [("NPC Creator",
          "/w gm Error creating NPC: data.hasOwnProperty is not a function")]
        ["NPC Creation Error: data.hasOwnProperty is not a function"] 0).
Proof. vm_compute. repeat split. Qed.

(** C2 at the descriptor [{hasOwnProperty: 0}], which has no required field
    at all: no record is created, but what the requester gets is the
    creation error of the [catch] block, and the error is logged. *)
Theorem shadowed_missing_field_not_rejected :
  let d : Val := Obj [("hasOwnProperty", Num (Int 0))] in
  forallb (own_property d) requiredFields = false
  /\ handleInput host (create d) w0 =
     (Normal tt,
      mkWorld []
        [("NPC Creator",
          "/w gm Error creating NPC: data.hasOwnProperty is not a function")]
        ["NPC Creation Error: data.hasOwnProperty is not a function"] 0)
  /\ "/w gm Error creating NPC: data.hasOwnProperty is not a function"
     <> validation_error.
Proof. vm_compute. repeat split. discriminate. Qed.

(** ** Materialization *)

Section Materialized.

Context {number : Type}.
Variable h : @Host number.

(** The records that one command on a well-typed descriptor adds to an
    accepting store are those of the materialization, in its order. *)
Lemma materialized_news (msg : Msg) (d : JsVal)
  (equipment skills languages actions traits : list JsVal) (b t : string)
  (w : World) :
  accepting h ->
  addressed msg ->
  JSON_parse h (payload (content msg)) = inr d ->
  WellTyped h d equipment skills languages actions traits b t ->
  exists w' news,
    handleInput h msg w = (Normal tt, w')
    /\ store w' = (store w ++ news)%list
    /\ map request_of news =
       materialization h (store w) (draws w) (playerid msg) d
         equipment skills languages actions traits b t
    /\ draws w' =
       draws w + List.length equipment + List.length skills
       + List.length languages + 2 * List.length actions.
Proof.
  intros Hacc Ha Hd Hw.
  destruct (materialized h Hacc msg d _ _ _ _ _ _ _ w Ha Hd Hw)
    as (w' & Hrun & Hst & Hdr).
  destruct (add_all_news h
              (materialization h (store w) (draws w) (playerid msg) d
                 equipment skills languages actions traits b t) (store w))
    as (news & Hs & Hm).
  exists w', news. repeat split; try assumption. congruence.
Qed.

Lemma filter_by_request (P : @RObj number -> bool) (news : list RObj) :
  (forall o, P o = P (blank (request_of o))) ->
  map request_of (filter P news) =
  filter (fun r => P (blank r)) (map request_of news).
Proof.
  intros HP. induction news as [|o l IH]; cbn [map filter]; [reflexivity|].
  rewrite <- HP. destruct (P o); cbn [map]; now rewrite IH.
Qed.

Lemma filter_none (P : @RObj number -> bool) (l : list Request) :
  Forall (fun r => P (blank r) = false) l ->
  filter (fun r => P (blank r)) l = [].
Proof.
  induction 1 as [|r l Hr _ IH]; cbn [filter]; [reflexivity|]. now rewrite Hr.
Qed.

Lemma abilities_of_materialization (st : list RObj) (n : nat) (player : string)
  (d : JsVal) (equipment skills languages actions traits : list JsVal)
  (b t : string) :
  filter (fun r => is_ability (blank r))
    (materialization h st n player d equipment skills languages actions traits b t)
  = [ability_request (character_id h st d player) (narrative b t)].
Proof.
  rewrite materialization_parts, !filter_app.
  rewrite (filter_none is_ability (field_requests _ _ _ _ _ _ _ _)).
  2:{ eapply Forall_impl; [|apply field_kind]. intros r Hr.
      now apply attribute_other_kinds, field_is_attribute. }
  rewrite (filter_none is_ability (action_requests _ _ _ _)).
  2:{ eapply Forall_impl; [|apply action_kind]. intros r Hr.
      now apply attribute_other_kinds, action_is_attribute. }
  reflexivity.
Qed.

End Materialized.

(** The spec's end-to-end example: Grak is created and the requester is
    told so in a whisper. *)
Example grak_created :
  fst (handleInput host (create grak) w0) = Normal tt
  /\ chat (snd (handleInput host (create grak) w0)) =
     [("NPC Creator", "/w gm NPC Grak has been created!")]
  /\ console (snd (handleInput host (create grak) w0)) = []
  /\ List.length (store (snd (handleInput host (create grak) w0))) = 21.
Proof. vm_compute. repeat split. Qed.

(** C1, with the count that the script has.  One command on a well-typed
    descriptor with [N] equipment items, [M] skills, [K] languages and [A]
    actions adds to an accepting store exactly one character, exactly
    [12 + N + M + K] attribute records outside the actions group (twelve
    scalar fields: the nine basic ones, appearance, background and
    personality traits), exactly [2 * A] attribute records of the actions
    group, exactly one ability, and nothing else. *)
Theorem createNPC_counts {number : Type} (h : @Host number) (msg : Msg)
  (d : JsVal) (equipment skills languages actions traits : list JsVal)
  (b t : string) (w : World) :
  accepting h ->
  addressed msg ->
  JSON_parse h (payload (content msg)) = inr d ->
  WellTyped h d equipment skills languages actions traits b t ->
  exists w' news,
    handleInput h msg w = (Normal tt, w')
    /\ store w' = (store w ++ news)%list
    /\ count is_character news = 1
    /\ count is_field_attribute news =
       12 + List.length equipment + List.length skills + List.length languages
    /\ count is_action_attribute news = 2 * List.length actions
    /\ count is_ability news = 1
    /\ List.length news =
       1 + (12 + List.length equipment + List.length skills + List.length languages)
       + 2 * List.length actions + 1.
Proof.
  intros Hacc Ha Hd Hw.
  destruct (materialized_news h msg d _ _ _ _ _ _ _ w Hacc Ha Hd Hw)
    as (w' & news & Hrun & Hst & Hm & _).
  exists w', news. split; [exact Hrun|]. split; [exact Hst|].
  rewrite !count_by_request by (intros []; reflexivity).
  rewrite <- (length_map request_of news), Hm.
  rewrite tally_character, tally_fields, tally_actions, tally_ability.
  repeat split.
  rewrite materialization_parts, !length_app, field_length, action_length.
  cbn [List.length]. lia.
Qed.

Lemma createNPC_counts_witness :
  exists w' news,
    handleInput host (create grak) w0 = (Normal tt, w')
    /\ store w' = ([] ++ news)%list
    /\ count is_character news = 1
    /\ count is_field_attribute news = 12 + 2 + 1 + 2
    /\ count is_action_attribute news = 2 * 1
    /\ count is_ability news = 1
    /\ List.length news = 1 + (12 + 2 + 1 + 2) + 2 * 1 + 1.
Proof.
  apply (createNPC_counts host (create grak) grak
           [Str "Axe"; Str "Shield"] [Str "Athletics"]
           [Str "Common"; Str "Orcish"]
           [Obj [("name", Str "Slam"); ("description", Str "2d6 bludgeoning")]]
           [Str "Gruff"; Str "Loyal"] "Former gladiator" "Gruff,Loyal" w0).
  - intros st ty ps. eexists. reflexivity.
  - split; reflexivity.
  - vm_compute. reflexivity.
  - constructor; reflexivity.
Defined.

(** C1 as stated fails on the descriptor of Grak (two equipment items, one
    skill, two languages, one action): the attribute records outside the
    actions group are 17, not 9 + 2 + 1 + 2, and all the attribute records
    are 19, not 9 + 2 + 1 + 2 + 2 * 1. *)
Lemma nine_scalar_fields_refuted :
  let news := store (snd (handleInput host (create grak) w0)) in
  field grak "equipment" = Arr [Str "Axe"; Str "Shield"]
  /\ field grak "skills" = Arr [Str "Athletics"]
  /\ field grak "languages" = Arr [Str "Common"; Str "Orcish"]
  /\ count is_field_attribute news = 17
  /\ count is_field_attribute news <> 9 + 2 + 1 + 2
  /\ count is_attribute news = 19
  /\ count is_attribute news <> (9 + 2 + 1 + 2) + 2 * 1.
Proof. vm_compute. repeat split; discriminate. Qed.

(** C7. On a descriptor that passes the validator, whose lists are arrays,
    whose background is "Former gladiator" and whose personality traits are
    ["Gruff", "Loyal"], the handler creates exactly one ability, and its
    description is the background paragraph followed by the traits
    paragraph, the traits joined by a comma. *)
Theorem gladiator_narrative {number : Type} (h : @Host number) (msg : Msg)
  (d : JsVal) (equipment skills languages actions : list JsVal) (w : World) :
  accepting h ->
  addressed msg ->
  JSON_parse h (payload (content msg)) = inr d ->
  validateNPCData h d = Normal true ->
  field d "equipment" = Arr equipment ->
  field d "skills" = Arr skills ->
  field d "languages" = Arr languages ->
  field d "actions" = Arr actions ->
  forallb coercible actions = true ->
  field d "background" = Str "Former gladiator" ->
  field d "personality_traits" = Arr [Str "Gruff"; Str "Loyal"] ->
  exists w' news o,
    handleInput h msg w = (Normal tt, w')
    /\ store w' = (store w ++ news)%list
    /\ filter is_ability news = [o]
    /\ lookup "description" (props o) =
       Some (Str ("Background: Former gladiator" ++ LF ++ LF
                  ++ "Personality Traits: Gruff,Loyal" ++ LF ++ LF)).
Proof.
  intros Hacc Ha Hd Hv He Hs Hl Hac Hc Hb Ht.
  assert (Hw : WellTyped h d equipment skills languages actions
                 [Str "Gruff"; Str "Loyal"] "Former gladiator" "Gruff,Loyal").
  { constructor; try assumption; [now rewrite Hb | reflexivity]. }
  destruct (materialized_news h msg d _ _ _ _ _ _ _ w Hacc Ha Hd Hw)
    as (w' & news & Hrun & Hst & Hm & _).
  pose proof (filter_by_request is_ability news) as Hf.
  rewrite Hm, abilities_of_materialization in Hf.
  specialize (Hf (fun o => match o with mkObj _ _ _ => eq_refl end)).
  destruct (filter is_ability news) as [|o [|o' l]] eqn:Hab; try discriminate Hf.
  exists w', news, o. repeat split; try assumption.
  cbn [map] in Hf. injection Hf as _ Hp. rewrite Hp. reflexivity.
Qed.

Lemma gladiator_narrative_witness :
  exists w' news o,
    handleInput host (create grak) w0 = (Normal tt, w')
    /\ store w' = ([] ++ news)%list
    /\ filter is_ability news = [o]
    /\ lookup "description" (props o) =
       Some (Str ("Background: Former gladiator" ++ LF ++ LF
                  ++ "Personality Traits: Gruff,Loyal" ++ LF ++ LF)).
Proof.
  apply (gladiator_narrative host (create grak) grak
           [Str "Axe"; Str "Shield"] [Str "Athletics"]
           [Str "Common"; Str "Orcish"]
           [Obj [("name", Str "Slam"); ("description", Str "2d6 bludgeoning")]]
           w0).
  - intros st ty ps. eexists. reflexivity.
  - split; reflexivity.
  - vm_compute. reflexivity.
  - reflexivity.
  - reflexivity.
  - reflexivity.
  - reflexivity.
  - reflexivity.
  - reflexivity.
  - reflexivity.
  - reflexivity.
Defined.

(** ** Row discriminators *)

Section EntryRows.

Context {number : Type}.
Variable h : @Host number.











End EntryRows.






(** C4 at the descriptor of Grak, on a generator that does not repeat
    itself: the two records of the action "Slam" are created in order, the
    name first, but each under a row discriminator of its own. *)
Theorem action_rows_differ :
  let acts := filter is_action_attribute
                (store (snd (handleInput host (create grak) w0))) in
  map attribute_name acts =
    [Some "repeating_npcaction_5q7m2x9k_name";
     Some "repeating_npcaction_6q7m2x9k_description"]
  /\ map (fun o => lookup "current" (props o)) acts =
    [Some (Str "Slam"); Some (Str "2d6 bludgeoning")]
  /\ rows "npcaction" acts = ["5q7m2x9k"; "6q7m2x9k"]
  /\ "5q7m2x9k" <> "6q7m2x9k".
Proof. vm_compute. repeat split. discriminate. Qed.

(** * Further properties of the script *)

(** ** Ownership of the records *)

Section Owned.

Context {number : Type}.
Variable h : @Host number.

Lemma adds_ret {A} (P : @RObj number -> bool) (a : A) : adds P (ret a).
Proof. intros w. exists []. split; [symmetry; apply app_nil_r | reflexivity]. Qed.

Lemma adds_lift {A} (P : @RObj number -> bool) (c : Completion A) : adds P (lift c).
Proof. intros w. exists []. split; [symmetry; apply app_nil_r | reflexivity]. Qed.

Lemma adds_bind {A B} (P : @RObj number -> bool) (m : M A) (k : A -> M B) :
  adds P m -> (forall a, adds P (k a)) -> adds P (bind m k).
Proof.
  intros Hm Hk w. unfold bind.
  destruct (Hm w) as (n1 & H1 & P1). destruct (m w) as [[a|e] w1]; simpl in *.
  - destruct (Hk a w1) as (n2 & H2 & P2).
    exists (n1 ++ n2)%list. rewrite H2, H1, app_assoc. split; [reflexivity|].
    rewrite forallb_app. now rewrite P1, P2.
  - exists n1. now split.
Qed.

Lemma adds_generateRowID (P : @RObj number -> bool) : adds P (generateRowID h).
Proof. intros w. exists []. split; [symmetry; apply app_nil_r | reflexivity]. Qed.

Lemma adds_forEach_list {A} (P : @RObj number -> bool) (f : A -> M unit)
  (l : list A) :
  (forall x, adds P (f x)) -> adds P (forEach_list f l).
Proof.
  intros Hf. induction l as [|x l IH]; simpl.
  - apply adds_ret.
  - apply adds_bind; [apply Hf | intros; exact IH].
Qed.

Lemma adds_forEach (P : @RObj number -> bool) (callee : string) (v : JsVal)
  (f : JsVal -> M unit) :
  (forall x, adds P (f x)) -> adds P (forEach h callee v f).
Proof.
  intros Hf. destruct v; simpl; try apply adds_lift.
  now apply adds_forEach_list.
Qed.

Lemma adds_entries (P : @RObj number -> bool) (d : JsVal) (ks : list string) :
  adds P (entries h d ks).
Proof.
  induction ks as [|k ks IH]; simpl.
  - apply adds_ret.
  - apply adds_bind.
    + apply adds_bind; [apply adds_lift | intros; apply adds_ret].
    + intros e. apply adds_bind; [exact IH | intros; apply adds_ret].
Qed.

(** A dependent record is created with the id of the character. *)
Lemma adds_new_attribute (c : @RObj number) (n : string) (v : JsVal) :
  adds (owned_by (id c)) (new_attribute h c n v).
Proof.
  intros w. unfold new_attribute, bind, createObj.
  destruct (createObj_outcome h (store w) "attribute" _) as [e|i]; simpl.
  - exists []. split; [symmetry; apply app_nil_r | reflexivity].
  - eexists [_]. split; [reflexivity|]. cbn [forallb]. rewrite andb_true_r.
    unfold owned_by. simpl. now rewrite String.eqb_refl.
Qed.

Lemma adds_ability (c : @RObj number) (text : string) :
  adds (owned_by (id c))
    (createObj h "ability"
       [("name", Str "Background & Personality"); ("description", Str text);
        ("characterid", Str (id c))]).
Proof.
  intros w. unfold createObj.
  destruct (createObj_outcome h (store w) "ability" _) as [e|i]; simpl.
  - exists []. split; [symmetry; apply app_nil_r | reflexivity].
  - eexists [_]. split; [reflexivity|]. cbn [forallb]. rewrite andb_true_r.
    unfold owned_by. simpl. now rewrite String.eqb_refl.
Qed.

Ltac owned :=
  repeat first
    [ apply adds_ret | apply adds_lift | apply adds_generateRowID
    | apply adds_new_attribute | apply adds_ability | apply adds_entries
    | apply adds_forEach_list; intros
    | apply adds_forEach; intros
    | apply adds_bind; [|intros] ].

Lemma adds_addAttributesToCharacter (c : @RObj number) (d : JsVal) :
  adds (owned_by (id c)) (addAttributesToCharacter h c d).
Proof. unfold addAttributesToCharacter. owned. Qed.

Lemma adds_createActionsAbility (c : @RObj number) (a : JsVal) :
  adds (owned_by (id c)) (createActionsAbility h c a).
Proof. unfold createActionsAbility. owned. Qed.

Lemma adds_createBackgroundAbility (c : @RObj number) (d : JsVal) :
  adds (owned_by (id c)) (createBackgroundAbility h c d).
Proof. unfold createBackgroundAbility. owned. Qed.

Lemma adds_sendChat (P : @RObj number -> bool) (a b : string) : adds P (sendChat a b).
Proof. intros w. exists []. split; [symmetry; apply app_nil_r | reflexivity]. Qed.

Lemma store_report (e : Exn) (w : @World number) :
  store (snd (report e w)) = store w.
Proof. reflexivity. Qed.

Lemma family_pipeline (msg : Msg) (w : @World number) :
  exists news,
    store (snd (pipeline h msg w)) = (store w ++ news)%list /\ family news.
Proof.
  assert (Hnone : exists news, store w = (store w ++ news)%list /\ family news).
  { exists []. split; [symmetry; apply app_nil_r | now left]. }
  unfold pipeline, bind at 1, lift at 1.
  destruct (extractNPCData h (content msg)) as [d|e]; [|exact Hnone].
  unfold bind at 1, lift at 1.
  destruct (validateNPCData h d) as [[|]|e]; cbn [negb]; try exact Hnone.
  unfold bind at 1, lift at 1.
  destruct (Get h d "name") as [n|e]; [|exact Hnone].
  unfold bind at 1, createObj at 1.
  destruct (createObj_outcome h (store w) "character" _) as [e|i]; [exact Hnone|].
  cbv zeta.
  match goal with
  | |- context [snd (?k ?w1)] =>
      assert (Hk : adds (owned_by i) k)
  end.
  { change i with (id (mkObj "character" i
                         [("name", n); ("controlledby", Str (playerid msg))])).
    apply adds_bind; [apply adds_addAttributesToCharacter | intros _].
    apply adds_bind; [apply adds_lift | intros a].
    apply adds_bind; [apply adds_createActionsAbility | intros _].
    apply adds_bind; [apply adds_createBackgroundAbility | intros _].
    apply adds_bind; [apply adds_lift | intros n'].
    apply adds_bind; [apply adds_lift | intros t].
    apply adds_sendChat. }
  match goal with
  | |- context [snd (?k ?w1)] => destruct (Hk w1) as (rest & Hs & Hr)
  end.
  rewrite Hs. cbn [store]. rewrite <- app_assoc.
  eexists. split; [reflexivity|]. right.
  eexists _, rest. split; [reflexivity|]. split; [reflexivity | exact Hr].
Qed.

End Owned.

(** X1. Whatever the message and whatever the host does, the handler
    leaves the records of the store in place, and what it adds is either
    nothing or one character followed by attributes and abilities that
    carry the id of that character. *)
Theorem created_records_are_a_family {number : Type} (h : @Host number)
  (msg : Msg) (w : World) :
  exists news,
    store (snd (handleInput h msg w)) = (store w ++ news)%list /\ family news.
Proof.
  unfold handleInput.
  destruct (negb _ || negb _).
  - exists []. split; [symmetry; apply app_nil_r | now left].
  - unfold try_catch.
    destruct (family_pipeline h msg w) as (news & Hs & Hf).
    destruct (pipeline h msg w) as [[[]|e] w1]; cbn [snd] in *.
    + now exists news.
    + rewrite store_report. now exists news.
Qed.

(** ** Validation comes before any creation *)

(** X2. Unless the payload decodes to a descriptor on which the validator
    returns [true], the handler creates no record and does not draw from
    the random generator. *)
Theorem nothing_created_unless_validated {number : Type} (h : @Host number)
  (msg : Msg) (w : World) :
  (forall d, extractNPCData h (content msg) = Normal d ->
             validateNPCData h d <> Normal true) ->
  store (snd (handleInput h msg w)) = store w
  /\ draws (snd (handleInput h msg w)) = draws w.
Proof.
  intros Hgate. unfold handleInput.
  destruct (negb _ || negb _); [split; reflexivity|].
  unfold try_catch, pipeline, bind, lift.
  destruct (extractNPCData h (content msg)) as [d|e]; [|split; reflexivity].
  specialize (Hgate d eq_refl).
  destruct (validateNPCData h d) as [[|]|e]; cbn [negb].
  - now elim Hgate.
  - split; reflexivity.
  - split; reflexivity.
Qed.

Lemma nothing_created_unless_validated_witness :
  store (snd (handleInput Cases.host (create (Arr [])) w0)) = []
  /\ draws (snd (handleInput Cases.host (create (Arr [])) w0)) = 0.
Proof.
  apply (nothing_created_unless_validated Cases.host (create (Arr [])) w0).
  intros d Hd. vm_compute in Hd. injection Hd as <-. vm_compute. discriminate.
Defined.

(** ** Failures during the creation *)

Section Failures.

Context {number : Type}.
Variable h : @Host number.

Lemma bind_throw {A B} (m : M A) (k : A -> M B) (e : Exn) (w w1 : @World number) :
  m w = (Throw e, w1) -> bind m k w = (Throw e, w1).
Proof. intros H. unfold bind. now rewrite H. Qed.

Lemma forEach_not_array (callee : string) (v : JsVal) (f : JsVal -> M unit)
  (w : @World number) :
  is_array v = false ->
  exists m, forEach h callee v f w = (Throw (TypeError m), w).
Proof.
  intros Hv. destruct v; try discriminate Hv; simpl; unfold lift, type_error;
    eexists; reflexivity.
Qed.

End Failures.

(** X3. When the store rejects the character, the first write of a command
    on a validated descriptor, nothing is created and nothing is drawn: the
    requester gets the store's message in a whisper, and it is logged. *)
Theorem rejected_character_creates_nothing {number : Type} (h : @Host number)
  (msg : Msg) (d : JsVal) (e : string) (w : World) :
  addressed msg ->
  JSON_parse h (payload (content msg)) = inr d ->
  validateNPCData h d = Normal true ->
  createObj_outcome h (store w) "character"
    [("name", field d "name"); ("controlledby", Str (playerid msg))] = inl e ->
  handleInput h msg w =
  (Normal tt,
   mkWorld (store w)
     (chat w ++ [("NPC Creator", "/w gm Error creating NPC: " ++ e)])
     (console w ++ ["NPC Creation Error: " ++ e]) (draws w)).
Proof.
  intros Ha Hd Hv He.
  destruct (validate_true_inv h d Hv) as (ps & -> & _ & _).
  rewrite (thrown_run h msg (StoreError e) w w Ha); [reflexivity|].
  unfold pipeline.
  unfold lift at 1. erewrite bind_run by (rewrite (extract_decoded h _ _ Hd); reflexivity).
  unfold lift at 1. erewrite bind_run by (rewrite Hv; reflexivity).
  cbn [negb].
  unfold lift at 1. erewrite bind_run by reflexivity.
  apply bind_throw. unfold createObj.
  change (match lookup "name" ps with Some x => x | None => Undefined end)
    with (field (Obj ps) "name").
  now rewrite He.
Qed.

Lemma rejected_character_creates_nothing_witness :
  handleInput Cases.closed_host (create grak) w0 =
  (Normal tt,
   mkWorld []
     [("NPC Creator", "/w gm Error creating NPC: store is read-only")]
     ["NPC Creation Error: store is read-only"] 0).
Proof.
  apply (rejected_character_creates_nothing Cases.closed_host (create grak) grak
           "store is read-only" w0).
  - split; reflexivity.
  - vm_compute. reflexivity.
  - reflexivity.
  - reflexivity.
Defined.

(** X4. The validator does not look at the values.  On a validated
    descriptor whose [equipment] is not an array, the character and the
    nine basic attributes are created; then [forEach] throws, nothing is
    undone, and the requester gets an error whisper. *)
Theorem equipment_not_array_leaves_partial_character {number : Type}
  (h : @Host number) (msg : Msg) (d : JsVal) (w : World) :
  accepting h ->
  addressed msg ->
  JSON_parse h (payload (content msg)) = inr d ->
  validateNPCData h d = Normal true ->
  is_array (field d "equipment") = false ->
  exists m news,
    handleInput h msg w =
    (Normal tt,
     mkWorld (store w ++ news)
       (chat w ++ [("NPC Creator", "/w gm Error creating NPC: " ++ m)])
       (console w ++ ["NPC Creation Error: " ++ m]) (draws w))
    /\ map request_of news =
       character_request d (playerid msg)
       :: basic_requests (character_id h (store w) d (playerid msg)) d
    /\ List.length news = 10.
Proof.
  intros Hacc Ha Hd Hv Harr.
  destruct (validate_true_inv h d Hv) as (ps & -> & _ & _).
  destruct (forEach_not_array h "attr.items" (field (Obj ps) "equipment")
              (fun item =>
                 row <- generateRowID h ;;
                 new_attribute h
                   (mkObj "character"
                      (character_id h (store w) (Obj ps) (playerid msg))
                      (snd (character_request (Obj ps) (playerid msg))))
                   ("repeating_" ++ "equipment" ++ "_" ++ row ++ "_name") item)
              (mkWorld
                 (add_all h (store w)
                    (character_request (Obj ps) (playerid msg)
                     :: basic_requests
                          (character_id h (store w) (Obj ps) (playerid msg))
                          (Obj ps)))
                 (chat w) (console w) (draws w)) Harr) as (m & Hm).
  destruct (add_all_news h
              (character_request (Obj ps) (playerid msg)
               :: basic_requests (character_id h (store w) (Obj ps) (playerid msg))
                    (Obj ps)) (store w)) as (news & Hs & Hreq).
  exists m, news. split; [|split; [exact Hreq|]].
  - rewrite (thrown_run h msg (TypeError m) w
               (mkWorld (store w ++ news) (chat w) (console w) (draws w)) Ha);
      [reflexivity|].
    rewrite <- Hs. unfold pipeline.
    unfold lift at 1.
    erewrite bind_run by (rewrite (extract_decoded h _ _ Hd); reflexivity).
    unfold lift at 1. erewrite bind_run by (rewrite Hv; reflexivity).
    cbn [negb].
    unfold lift at 1. erewrite bind_run by reflexivity.
    erewrite bind_run by (apply createObj_run; exact Hacc).
    apply bind_throw.
    unfold addAttributesToCharacter.
    erewrite bind_run by apply entries_run.
    erewrite bind_run by apply entries_run.
    erewrite bind_run by (apply basic_run; exact Hacc).
    apply bind_throw. cbn [map forEach_list fst snd].
    apply bind_throw. cbn [store chat console draws id].
    exact Hm.
  - rewrite <- (length_map request_of news), Hreq. reflexivity.
Qed.

Lemma equipment_not_array_leaves_partial_character_witness :
  exists m news,
    handleInput Cases.host (create Cases.grak_sloppy) w0 =
    (Normal tt,
     mkWorld ([] ++ news)
       [("NPC Creator", "/w gm Error creating NPC: " ++ m)]
       ["NPC Creation Error: " ++ m] 0)
    /\ map request_of news =
       character_request Cases.grak_sloppy "-player1"
       :: basic_requests
            (character_id Cases.host [] Cases.grak_sloppy "-player1")
            Cases.grak_sloppy
    /\ List.length news = 10.
Proof.
  apply (equipment_not_array_leaves_partial_character Cases.host
           (create Cases.grak_sloppy) Cases.grak_sloppy w0).
  - intros st ty ps. eexists. reflexivity.
  - split; reflexivity.
  - vm_compute. reflexivity.
  - reflexivity.
  - reflexivity.
Defined.

(** ** The report at the end *)

(** X5. A command on a well-typed descriptor whose name prints as [n], on
    an accepting store: the store holds the whole materialization, the
    generator has been drawn once for each list entry and twice for each
    action, the requester gets one whisper that mentions [n], and nothing
    is logged. *)
Theorem success_reported {number : Type} (h : @Host number) (msg : Msg)
  (d : JsVal) (equipment skills languages actions traits : list JsVal)
  (b t n : string) (w : World) :
  accepting h ->
  addressed msg ->
  JSON_parse h (payload (content msg)) = inr d ->
  WellTyped h d equipment skills languages actions traits b t ->
  ToString h (field d "name") = Normal n ->
  handleInput h msg w =
  (Normal tt,
   mkWorld
     (add_all h (store w)
        (materialization h (store w) (draws w) (playerid msg) d
           equipment skills languages actions traits b t))
     (chat w ++ [("NPC Creator", "/w gm NPC " ++ n ++ " has been created!")])
     (console w)
     (draws w + List.length equipment + List.length skills
      + List.length languages + 2 * List.length actions)).
Proof.
  intros Hacc Ha Hd Hw Hn. rewrite (handleInput_addressed h _ Ha).
  unfold try_catch. rewrite (pipeline_run h Hacc _ _ _ _ _ _ _ _ _ _ Hd Hw).
  unfold bind, lift. rewrite Hn. reflexivity.
Qed.

Lemma success_reported_witness :
  handleInput host (create grak) w0 =
  (Normal tt,
   mkWorld
     (add_all host []
        (materialization host [] 0 "-player1" grak
           [Str "Axe"; Str "Shield"] [Str "Athletics"]
           [Str "Common"; Str "Orcish"]
           [Obj [("name", Str "Slam"); ("description", Str "2d6 bludgeoning")]]
           [Str "Gruff"; Str "Loyal"] "Former gladiator" "Gruff,Loyal"))
     [("NPC Creator", "/w gm NPC Grak has been created!")]
     [] (0 + 2 + 1 + 2 + 2 * 1)).
Proof.
  apply (success_reported host (create grak) grak
           [Str "Axe"; Str "Shield"] [Str "Athletics"]
           [Str "Common"; Str "Orcish"]
           [Obj [("name", Str "Slam"); ("description", Str "2d6 bludgeoning")]]
           [Str "Gruff"; Str "Loyal"] "Former gladiator" "Gruff,Loyal" "Grak" w0).
  - intros st ty ps. eexists. reflexivity.
  - split; reflexivity.
  - vm_compute. reflexivity.
  - constructor; reflexivity.
  - reflexivity.
Defined.

(** X6. The name is printed only after everything has been created.  When
    printing it throws (the name is an object with a key [toString]), the
    store holds the whole materialization all the same, and the requester
    is told that the creation failed. *)
Theorem unprintable_name_reported_as_failure {number : Type} (h : @Host number)
  (msg : Msg) (d : JsVal)
  (equipment skills languages actions traits : list JsVal)
  (b t : string) (e : Exn) (w : World) :
  accepting h ->
  addressed msg ->
  JSON_parse h (payload (content msg)) = inr d ->
  WellTyped h d equipment skills languages actions traits b t ->
  ToString h (field d "name") = Throw e ->
  handleInput h msg w =
  (Normal tt,
   mkWorld
     (add_all h (store w)
        (materialization h (store w) (draws w) (playerid msg) d
           equipment skills languages actions traits b t))
     (chat w ++ [("NPC Creator", "/w gm Error creating NPC: " ++ message e)])
     (console w ++ ["NPC Creation Error: " ++ message e])
     (draws w + List.length equipment + List.length skills
      + List.length languages + 2 * List.length actions)).
Proof.
  intros Hacc Ha Hd Hw Hn. rewrite (handleInput_addressed h _ Ha).
  unfold try_catch. rewrite (pipeline_run h Hacc _ _ _ _ _ _ _ _ _ _ Hd Hw).
  unfold bind, lift. rewrite Hn. reflexivity.
Qed.

Lemma unprintable_name_reported_as_failure_witness :
  handleInput Cases.host (create Cases.grak_unnamed) w0 =
  (Normal tt,
   mkWorld
     (add_all Cases.host []
        (materialization Cases.host [] 0 "-player1" Cases.grak_unnamed
           [Str "Axe"; Str "Shield"] [Str "Athletics"]
           [Str "Common"; Str "Orcish"]
           [Obj [("name", Str "Slam"); ("description", Str "2d6 bludgeoning")]]
           [Str "Gruff"; Str "Loyal"] "Former gladiator" "Gruff,Loyal"))
     [("NPC Creator",
       "/w gm Error creating NPC: Cannot convert object to primitive value")]
     ["NPC Creation Error: Cannot convert object to primitive value"]
     (0 + 2 + 1 + 2 + 2 * 1)).
Proof.
  apply (unprintable_name_reported_as_failure Cases.host
           (create Cases.grak_unnamed) Cases.grak_unnamed
           [Str "Axe"; Str "Shield"] [Str "Athletics"]
           [Str "Common"; Str "Orcish"]
           [Obj [("name", Str "Slam"); ("description", Str "2d6 bludgeoning")]]
           [Str "Gruff"; Str "Loyal"] "Former gladiator" "Gruff,Loyal"
           (TypeError "Cannot convert object to primitive value") w0).
  - intros st ty ps. eexists. reflexivity.
  - split; reflexivity.
  - vm_compute. reflexivity.
  - constructor; reflexivity.
  - reflexivity.
Defined.

(** ** Running a command twice *)

(** X7. The handler keeps no memory of what it created: the same command
    on the same well-typed descriptor, handled twice in a row, creates two
    characters, each with a full set of records. *)
Theorem same_command_twice_creates_two_characters {number : Type}
  (h : @Host number) (msg : Msg) (d : JsVal)
  (equipment skills languages actions traits : list JsVal)
  (b t : string) (w : World) :
  accepting h ->
  addressed msg ->
  JSON_parse h (payload (content msg)) = inr d ->
  WellTyped h d equipment skills languages actions traits b t ->
  exists w1 w2 news1 news2,
    handleInput h msg w = (Normal tt, w1)
    /\ handleInput h msg w1 = (Normal tt, w2)
    /\ store w2 = (store w ++ news1 ++ news2)%list
    /\ count is_character news1 = 1
    /\ count is_character news2 = 1
    /\ count is_character (news1 ++ news2) = 2
    /\ List.length news1 = List.length news2.
Proof.
  intros Hacc Ha Hd Hw.
  destruct (materialized_news h msg d _ _ _ _ _ _ _ w Hacc Ha Hd Hw)
    as (w1 & news1 & Hrun1 & Hst1 & Hm1 & _).
  destruct (materialized_news h msg d _ _ _ _ _ _ _ w1 Hacc Ha Hd Hw)
    as (w2 & news2 & Hrun2 & Hst2 & Hm2 & _).
  exists w1, w2, news1, news2.
  assert (H1 : count is_character news1 = 1).
  { rewrite count_by_request by (intros []; reflexivity).
    rewrite Hm1. apply tally_character. }
  assert (H2 : count is_character news2 = 1).
  { rewrite count_by_request by (intros []; reflexivity).
    rewrite Hm2. apply tally_character. }
  repeat split; try assumption.
  - rewrite Hst2, Hst1. now rewrite app_assoc.
  - unfold count in *. now rewrite filter_app, length_app, H1, H2.
  - rewrite <- (length_map request_of news1), <- (length_map request_of news2).
    rewrite Hm1, Hm2, !materialization_parts, !length_app.
    rewrite !field_length, !action_length. reflexivity.
Qed.

Lemma same_command_twice_creates_two_characters_witness :
  exists w1 w2 news1 news2,
    handleInput host (create grak) w0 = (Normal tt, w1)
    /\ handleInput host (create grak) w1 = (Normal tt, w2)
    /\ store w2 = ([] ++ news1 ++ news2)%list
    /\ count is_character news1 = 1
    /\ count is_character news2 = 1
    /\ count is_character (news1 ++ news2) = 2
    /\ List.length news1 = List.length news2.
Proof.
  apply (same_command_twice_creates_two_characters host (create grak) grak
           [Str "Axe"; Str "Shield"] [Str "Athletics"]
           [Str "Common"; Str "Orcish"]
           [Obj [("name", Str "Slam"); ("description", Str "2d6 bludgeoning")]]
           [Str "Gruff"; Str "Loyal"] "Former gladiator" "Gruff,Loyal" w0).
  - intros st ty ps. eexists. reflexivity.
  - split; reflexivity.
  - vm_compute. reflexivity.
  - constructor; reflexivity.
Defined.

(** ** White space around the payload *)

Module TrimFacts.

Lemma trim_start_spaces (ws s : string) :
  all_space ws = true -> Str.trim_start (ws ++ s) = Str.trim_start s.
Proof.
  induction ws as [|c ws IH]; simpl; [reflexivity|].
  intros H. apply andb_prop in H. destruct H as [Hc Hw].
  rewrite Hc. now apply IH.
Qed.

Lemma trim_end_only_spaces (ws : string) :
  all_space ws = true -> Str.trim_end ws = "".
Proof.
  induction ws as [|c ws IH]; simpl; [reflexivity|].
  intros H. apply andb_prop in H. destruct H as [Hc Hw].
  rewrite (IH Hw). now rewrite Hc.
Qed.

Lemma trim_end_spaces (s ws : string) :
  all_space ws = true -> Str.trim_end (s ++ ws) = Str.trim_end s.
Proof.
  intros H. induction s as [|c s IH]; simpl.
  - now apply trim_end_only_spaces.
  - now rewrite IH.
Qed.

Lemma trim_start_then_spaces (s ws : string) :
  all_space ws = true ->
  Str.trim_end (Str.trim_start (s ++ ws)) = Str.trim_end (Str.trim_start s).
Proof.
  intros H. induction s as [|c s IH]; simpl.
  - rewrite <- (StrFacts.append_nil_r ws), trim_start_spaces by assumption.
    reflexivity.
  - destruct (Str.is_space c); [exact IH|].
    change (String c (s ++ ws)) with (String c s ++ ws).
    now apply trim_end_spaces.
Qed.

Lemma trim_spaces (ws1 s ws2 : string) :
  all_space ws1 = true -> all_space ws2 = true ->
  Str.trim (ws1 ++ s ++ ws2) = Str.trim s.
Proof.
  intros H1 H2. unfold Str.trim.
  rewrite trim_start_spaces by assumption. now apply trim_start_then_spaces.
Qed.

Lemma prefix_append (p t : string) : String.prefix p (p ++ t) = true.
Proof.
  induction p as [|c p IH]; simpl.
  - now destruct t.
  - destruct (ascii_dec c c) as [_|N]; [exact IH | now elim N].
Qed.

Lemma drop_append (p t : string) : Str.drop (String.length p) (p ++ t) = t.
Proof. induction p as [|c p IH]; simpl; [now destruct t | exact IH]. Qed.

(** What the decoder gets: the text after the command, trimmed. *)
Lemma payload_command (rest : string) :
  payload ("!create-npc" ++ rest) = Str.trim rest.
Proof.
  unfold payload.
  rewrite StrFacts.replace_prefix by apply prefix_append.
  now rewrite drop_append.
Qed.

End TrimFacts.

(** X8. White space between the command and its payload, and after the
    payload, does not matter, and none is needed: the handler does the same
    on [!create-npc<ws1><text><ws2>] as on [!create-npc<text>]. *)
Theorem white_space_around_payload_ignored {number : Type} (h : @Host number)
  (ws1 text ws2 player : string) (w : World) :
  all_space ws1 = true -> all_space ws2 = true ->
  handleInput h (mkMsg "api" ("!create-npc" ++ ws1 ++ text ++ ws2) player) w =
  handleInput h (mkMsg "api" ("!create-npc" ++ text) player) w.
Proof.
  intros H1 H2.
  rewrite !handleInput_addressed
    by (split; [reflexivity | apply TrimFacts.prefix_append]).
  unfold try_catch, pipeline, extractNPCData. cbn [content playerid].
  fold (payload ("!create-npc" ++ ws1 ++ text ++ ws2)).
  fold (payload ("!create-npc" ++ text)).
  rewrite !TrimFacts.payload_command, TrimFacts.trim_spaces by assumption.
  reflexivity.
Qed.

Lemma white_space_around_payload_ignored_witness :
  handleInput host
    (mkMsg "api" ("!create-npc" ++ "   " ++ stringify grak ++ " ") "-player1") w0 =
  handleInput host (mkMsg "api" ("!create-npc" ++ stringify grak) "-player1") w0.
Proof.
  apply (white_space_around_payload_ignored host "   " (stringify grak) " "
           "-player1" w0); reflexivity.
Defined.

(** ** The validator looks at keys only *)

Section ValidatorKeys.

Context {number : Type}.
Variable h : @Host number.

Lemma has_key_keys (k : string) (ps : @Props number) :
  has_key k ps = existsb (String.eqb k) (map fst ps).
Proof.
  unfold has_key. induction ps as [|[k' v] ps IH]; simpl; [reflexivity|].
  destruct (String.eqb k k'); [reflexivity | exact IH].
Qed.

Lemma every_ext {A} (f g : A -> Completion bool) (l : list A) :
  (forall x, f x = g x) -> every f l = every g l.
Proof.
  intros H. induction l as [|x l IH]; cbn [every]; [reflexivity|].
  now rewrite H, IH.
Qed.

Lemma validate_same_keys (ps ps' : @Props number) :
  (forall k, has_key k ps = has_key k ps') ->
  validateNPCData h (Obj ps) = validateNPCData h (Obj ps').
Proof.
  intros H. unfold validateNPCData. apply every_ext. intros k.
  cbn [call_hasOwnProperty]. now rewrite (H "hasOwnProperty"), (H k).
Qed.

End ValidatorKeys.

(** X9. The validator never looks at a value: two decoded objects with the
    same keys get the same answer from it, whatever their values (numbers,
    strings, lists, [null]). *)
Theorem validator_ignores_values {number : Type} (h : @Host number)
  (ps ps' : Props) :
  map fst ps = map fst ps' ->
  validateNPCData h (Obj ps) = validateNPCData h (Obj ps').
Proof.
  intros H. apply validate_same_keys. intros k.
  now rewrite !has_key_keys, H.
Qed.

Lemma validator_ignores_values_witness :
  validateNPCData host grak = validateNPCData host falsy.
Proof.
  apply (validator_ignores_values host
           [ ("name", Str "Grak"); ("race", Str "Orc"); ("class", Str "Fighter");
             ("level", Num (Int 3));
             ("strength", Num (Int 16)); ("dexterity", Num (Int 12));
             ("constitution", Num (Int 14)); ("intelligence", Num (Int 8));
             ("wisdom", Num (Int 10)); ("charisma", Num (Int 9));
             ("actions", Arr [ Obj [ ("name", Str "Slam");
                                     ("description", Str "2d6 bludgeoning") ] ]);
             ("background", Str "Former gladiator");
             ("personality_traits", Arr [ Str "Gruff"; Str "Loyal" ]);
             ("equipment", Arr [ Str "Axe"; Str "Shield" ]);
             ("skills", Arr [ Str "Athletics" ]);
             ("languages", Arr [ Str "Common"; Str "Orcish" ]);
             ("appearance", Str "Scarred and massive") ]
           [ ("name", Str ""); ("race", Str ""); ("class", Str "");
             ("level", Num (Int 0));
             ("strength", Num (Int 0)); ("dexterity", Num (Int 0));
             ("constitution", Num (Int 0)); ("intelligence", Num (Int 0));
             ("wisdom", Num (Int 0)); ("charisma", Num (Int 0));
             ("actions", Arr []); ("background", Str "");
             ("personality_traits", Arr []); ("equipment", Arr []);
             ("skills", Arr []); ("languages", Arr []); ("appearance", Str "") ]).
  reflexivity.
Defined.

(** X10. Fields that the script does not know are tolerated: a decoded
    object that has every key of an accepted one, and no key
    [hasOwnProperty], is accepted too, wherever its other keys stand. *)
Theorem validator_tolerates_more_fields {number : Type} (h : @Host number)
  (ps ps' : Props) :
  validateNPCData h (Obj ps) = Normal true ->
  (forall k, In k (map fst ps) -> In k (map fst ps')) ->
  has_key "hasOwnProperty" ps' = false ->
  validateNPCData h (Obj ps') = Normal true.
Proof.
  intros Hv Hin Hs.
  destruct (validate_true_inv h _ Hv) as (ps0 & E & _ & Hall).
  injection E as <-.
  rewrite (validate_plain h ps' Hs). f_equal.
  rewrite forallb_forall in *. intros k Hk. specialize (Hall k Hk).
  rewrite has_key_keys in *. rewrite existsb_exists in *.
  destruct Hall as (x & Hx & Ex). exists x. split; [now apply Hin | exact Ex].
Qed.

Lemma validator_tolerates_more_fields_witness :
  validateNPCData host Cases.grak_aligned = Normal true.
Proof.
  apply (validator_tolerates_more_fields host
           (match grak with Obj ps => ps | _ => [] end)
           (match Cases.grak_aligned with Obj ps => ps | _ => [] end)).
  - reflexivity.
  - intros k Hk. simpl in *. intuition.
  - reflexivity.
Defined.

(** X11. A command whose decoded value has properties, does not shadow
    [hasOwnProperty] and misses one of the required fields (an object
    without [wisdom], and also a number, a string or a list) creates
    nothing and gets the validation whisper; nothing is logged. *)
Theorem incomplete_descriptor_rejected {number : Type} (h : @Host number)
  (msg : Msg) (d : JsVal) (k : string) (w : World) :
  addressed msg ->
  JSON_parse h (payload (content msg)) = inr d ->
  coercible d = true -> shadows d = false ->
  In k requiredFields -> own_property d k = false ->
  handleInput h msg w =
  (Normal tt,
   mkWorld (store w) (chat w ++ [("NPC Creator", validation_error)])
     (console w) (draws w)).
Proof.
  intros Ha Hd Hc Hs Hk Hmiss.
  apply (missing_field_rejected h msg d w Ha Hd Hc Hs).
  destruct (forallb (own_property d) requiredFields) eqn:E; [|reflexivity].
  rewrite forallb_forall in E. now rewrite (E k Hk) in Hmiss.
Qed.

Lemma incomplete_descriptor_rejected_witness :
  handleInput host (create grak_unwise) w0 =
  (Normal tt, mkWorld [] [("NPC Creator", validation_error)] [] 0)
  /\ handleInput Cases.host (create (Num (Int 42))) w0 =
     (Normal tt, mkWorld [] [("NPC Creator", validation_error)] [] 0).
Proof.
  split.
  - apply (incomplete_descriptor_rejected host (create grak_unwise) grak_unwise
             "wisdom" w0).
    + split; reflexivity.
    + vm_compute. reflexivity.
    + reflexivity.
    + reflexivity.
    + simpl. intuition.
    + reflexivity.
  - apply (incomplete_descriptor_rejected Cases.host (create (Num (Int 42)))
             (Num (Int 42)) "name" w0).
    + split; reflexivity.
    + vm_compute. reflexivity.
    + reflexivity.
    + reflexivity.
    + simpl. intuition.
    + reflexivity.
Defined.

(** ** Row ids *)

Lemma substring_length (n m : nat) (s : string) :
  String.length (String.substring n m s) = Nat.min m (String.length s - n).
Proof.
  revert m s. induction n as [|n IH]; intros m s.
  - rewrite Nat.sub_0_r. revert s.
    induction m as [|m IHm]; intros s; destruct s; simpl; try reflexivity.
    now rewrite IHm.
  - destruct s as [|c s]; simpl.
    + now rewrite Nat.min_0_r.
    + apply IH.
Qed.

(** X12. [generateRowID] draws once from the generator and touches nothing
    else.  The row id has the characters of the base-36 text of the draw
    from the third to the tenth: eight characters when the text is long
    enough, fewer when it is short, none when the text has at most two
    characters (as for the draw 0, which prints as "0"). *)
Theorem row_id_length {number : Type} (h : @Host number) (w : World) :
  exists r,
    generateRowID h w =
    (Normal r, mkWorld (store w) (chat w) (console w) (S (draws w)))
    /\ String.length r =
       Nat.min 8 (String.length (Number_toString h (Math_random h (draws w)) 36) - 2).
Proof.
  eexists. split; [reflexivity|].
  unfold Str.substring. apply substring_length.
Qed.

(** ** The two printings of the personality traits *)

Section Traits.

Context {number : Type}.
Variable h : @Host number.

Lemma join_with_cons (f : @JsVal number -> Completion string) (sep : string)
  (x y : JsVal) (r : list JsVal) :
  join_with f sep (x :: y :: r) =
  cbind (match x with Undefined | Null => Normal "" | _ => f x end)
    (fun s => cbind (join_with f sep (y :: r))
                (fun t => Normal (s ++ sep ++ t))).
Proof. reflexivity. Qed.

Lemma join_strings (sep : string) (ss : list string) :
  join_with (ToString h) sep (map (@Str number) ss) =
  Normal (String.concat sep ss).
Proof.
  induction ss as [|x [|y r] IH]; [reflexivity | reflexivity |].
  change (map (@Str number) (x :: y :: r))
    with (@Str number x :: Str y :: map Str r).
  rewrite join_with_cons.
  change (@Str number y :: map Str r) with (map (@Str number) (y :: r)).
  rewrite IH. reflexivity.
Qed.

End Traits.

(** X13. The traits of a descriptor are printed twice, with two
    separators.  When they are strings [ss] and the background is the
    string [bg], the attribute [personality_traits] holds them joined by a
    comma and a space, and the ability holds the background paragraph
    and the traits joined by a comma alone. *)
Theorem traits_joined_two_ways {number : Type} (h : @Host number) (msg : Msg)
  (d : JsVal) (equipment skills languages actions : list JsVal)
  (bg : string) (ss : list string) (w : World) :
  accepting h ->
  addressed msg ->
  JSON_parse h (payload (content msg)) = inr d ->
  validateNPCData h d = Normal true ->
  field d "equipment" = Arr equipment ->
  field d "skills" = Arr skills ->
  field d "languages" = Arr languages ->
  field d "actions" = Arr actions ->
  forallb coercible actions = true ->
  field d "background" = Str bg ->
  field d "personality_traits" = Arr (map Str ss) ->
  exists w' news,
    handleInput h msg w = (Normal tt, w')
    /\ store w' = (store w ++ news)%list
    /\ In (attribute_request (character_id h (store w) d (playerid msg))
             "personality_traits" (Str (String.concat ", " ss)))
          (map request_of news)
    /\ In (ability_request (character_id h (store w) d (playerid msg))
             ("Background: " ++ bg ++ LF ++ LF
              ++ "Personality Traits: " ++ String.concat "," ss ++ LF ++ LF))
          (map request_of news).
Proof.
  intros Hacc Ha Hd Hv He Hs Hl Hac Hc Hb Ht.
  assert (Hw : WellTyped h d equipment skills languages actions
                 (map Str ss) bg (String.concat "," ss)).
  { constructor; try assumption; [now rewrite Hb | apply join_strings]. }
  destruct (materialized_news h msg d _ _ _ _ _ _ _ w Hacc Ha Hd Hw)
    as (w' & news & Hrun & Hst & Hm & _).
  exists w', news. split; [exact Hrun|]. split; [exact Hst|].
  rewrite Hm, materialization_parts.
  unfold joined_traits. rewrite join_strings. split.
  - apply in_or_app. right. apply in_or_app. left.
    unfold field_requests. rewrite !in_app_iff. do 4 right.
    simpl. auto.
  - rewrite !in_app_iff. do 3 right. left. reflexivity.
Qed.

Lemma traits_joined_two_ways_witness :
  exists w' news,
    handleInput host (create grak) w0 = (Normal tt, w')
    /\ store w' = ([] ++ news)%list
    /\ In (attribute_request (character_id host [] grak "-player1")
             "personality_traits" (Str (String.concat ", " ["Gruff"; "Loyal"])))
          (map request_of news)
    /\ In (ability_request (character_id host [] grak "-player1")
             ("Background: " ++ "Former gladiator" ++ LF ++ LF
              ++ "Personality Traits: " ++ String.concat "," ["Gruff"; "Loyal"]
              ++ LF ++ LF))
          (map request_of news).
Proof.
  apply (traits_joined_two_ways host (create grak) grak
           [Str "Axe"; Str "Shield"] [Str "Athletics"]
           [Str "Common"; Str "Orcish"]
           [Obj [("name", Str "Slam"); ("description", Str "2d6 bludgeoning")]]
           "Former gladiator" ["Gruff"; "Loyal"] w0).
  - intros st ty ps. eexists. reflexivity.
  - split; reflexivity.
  - vm_compute. reflexivity.
  - reflexivity.
  - reflexivity.
  - reflexivity.
  - reflexivity.
  - reflexivity.
  - reflexivity.
  - reflexivity.
  - reflexivity.
Defined.

(** ** The event loop *)

Section Session.

Context {number : Type}.
Variable h : @Host number.

Lemma fire_chat_bound (msg : Msg) (w : @World number) :
  fire h (ChatMessage msg) (mkSandbox bound w) =
  mkSandbox bound (snd (handleInput h msg w)).
Proof. reflexivity. Qed.

Lemma chat_session_bound (msgs : list Msg) (w : @World number) :
  chat_session h msgs (mkSandbox bound w) =
  mkSandbox bound (fold_left (fun w' msg => snd (handleInput h msg w')) msgs w).
Proof.
  revert w. induction msgs as [|msg msgs IH]; intros w; [reflexivity|].
  unfold chat_session in *. cbn [fold_left]. rewrite fire_chat_bound. apply IH.
Qed.

Lemma chat_session_unbound (msgs : list Msg) (w : @World number) :
  chat_session h msgs (script w) = script w.
Proof.
  induction msgs as [|msg msgs IH]; [reflexivity|].
  unfold chat_session in *. cbn [fold_left]. exact IH.
Qed.

End Session.

(** X14. The script binds [handleInput] only when the host fires [ready].
    Chat messages that arrive before are not handled at all.  Once [ready]
    has fired, the console holds the loading message, and every chat
    message is handled by [handleInput] exactly once, in the order of
    arrival; the bindings stay as they are. *)
Theorem handled_once_ready {number : Type} (h : @Host number)
  (msgs : list Msg) (w : World) :
  chat_session h msgs (script w) = script w
  /\ chat_session h msgs (fire h Ready (script w)) =
     mkSandbox bound
       (fold_left (fun w' msg => snd (handleInput h msg w')) msgs
          (mkWorld (store w) (chat w)
             (console w ++ ["NPC Creation Script loaded"])%list (draws w))).
Proof.
  split; [apply chat_session_unbound|].
  change (fire h Ready (script w))
    with (mkSandbox bound (snd (log "NPC Creation Script loaded" w))).
  apply chat_session_bound.
Qed.

(** ** The character *)

(** X15. Once the store has accepted the character of a validated
    descriptor under an id [i], that character stays in the store with the
    descriptor's name and the sender of the command as its controller,
    whatever happens next; every record created after it in this run
    carries [i] as its [characterid]. *)
Theorem character_controlled_by_sender {number : Type} (h : @Host number)
  (msg : Msg) (d : JsVal) (i : string) (w : World) :
  addressed msg ->
  JSON_parse h (payload (content msg)) = inr d ->
  validateNPCData h d = Normal true ->
  createObj_outcome h (store w) "character"
    [("name", field d "name"); ("controlledby", Str (playerid msg))] = inr i ->
  exists rest,
    store (snd (handleInput h msg w)) =
    (store w
     ++ mkObj "character" i
          [("name", field d "name"); ("controlledby", Str (playerid msg))]
     :: rest)%list
    /\ forallb (owned_by i) rest = true.
Proof.
  intros Ha Hd Hv Hi.
  destruct (validate_true_inv h d Hv) as (ps & -> & _ & _).
  rewrite (handleInput_addressed h _ Ha).
  assert (Hp : exists rest,
             store (snd (pipeline h msg w)) =
             (store w
              ++ mkObj "character" i
                   [("name", field (Obj ps) "name");
                    ("controlledby", Str (playerid msg))]
              :: rest)%list
             /\ forallb (owned_by i) rest = true).
  { unfold pipeline.
    unfold lift at 1.
    erewrite bind_run by (rewrite (extract_decoded h _ _ Hd); reflexivity).
    unfold lift at 1. erewrite bind_run by (rewrite Hv; reflexivity).
    cbn [negb].
    unfold lift at 1. erewrite bind_run by reflexivity.
    change (match lookup "name" ps with Some x => x | None => Undefined end)
      with (field (Obj ps) "name").
    erewrite bind_run by (unfold createObj; rewrite Hi; reflexivity).
    match goal with
    | |- context [snd (?k ?w1)] =>
        assert (Hk : adds (owned_by i) k);
        [| destruct (Hk w1) as (rest & Hs & Hr); exists rest;
           rewrite Hs; cbn [store]; rewrite <- app_assoc; now split ]
    end.
    change i with (id (mkObj "character" i
                         [("name", field (Obj ps) "name");
                          ("controlledby", Str (playerid msg))])) at 1.
    apply adds_bind; [apply adds_addAttributesToCharacter | intros _].
    apply adds_bind; [apply adds_lift | intros a].
    apply adds_bind; [apply adds_createActionsAbility | intros _].
    apply adds_bind; [apply adds_createBackgroundAbility | intros _].
    apply adds_bind; [apply adds_lift | intros n'].
    apply adds_bind; [apply adds_lift | intros t].
    apply adds_sendChat. }
  destruct Hp as (rest & Hs & Hr). exists rest. split; [|exact Hr].
  unfold try_catch. destruct (pipeline h msg w) as [[[]|e] w1]; exact Hs.
Qed.

Lemma character_controlled_by_sender_witness :
  exists rest,
    store (snd (handleInput Cases.host (create Cases.grak_sloppy) w0)) =
    ([] ++ mkObj "character" "-N0"
             [("name", field Cases.grak_sloppy "name");
              ("controlledby", Str "-player1")]
        :: rest)%list
    /\ forallb (owned_by "-N0") rest = true.
Proof.
  apply (character_controlled_by_sender Cases.host (create Cases.grak_sloppy)
           Cases.grak_sloppy "-N0" w0).
  - split; reflexivity.
  - vm_compute. reflexivity.
  - reflexivity.
  - reflexivity.
Defined.

(** ** Where each entry lands *)

Section Positions.

Context {number : Type}.
Variable h : @Host number.

Lemma nth_repeating_requests (cid group : string) (items : list JsVal)
  (n j : nat) (item : @JsVal number) :
  nth_error items j = Some item ->
  nth_error (repeating_requests h cid group n items) j =
  Some (attribute_request cid
          ("repeating_" ++ group ++ "_" ++ rowid h (n + j) ++ "_name") item).
Proof.
  revert n j. induction items as [|x l IH]; intros n j Hj.
  - now destruct j.
  - destruct j as [|j]; cbn [nth_error repeating_requests] in *.
    + injection Hj as ->. now rewrite Nat.add_0_r.
    + rewrite (IH (S n) j Hj). now rewrite Nat.add_succ_r.
Qed.

Lemma nth_action_requests (cid : string) (actions : list JsVal)
  (n j : nat) (action : @JsVal number) :
  nth_error actions j = Some action ->
  nth_error (action_requests h cid n actions) (2 * j) =
    Some (attribute_request cid
            ("repeating_npcaction_" ++ rowid h (n + 2 * j) ++ "_name")
            (field action "name"))
  /\ nth_error (action_requests h cid n actions) (S (2 * j)) =
    Some (attribute_request cid
            ("repeating_npcaction_" ++ rowid h (S (n + 2 * j)) ++ "_description")
            (field action "description")).
Proof.
  revert n j. induction actions as [|x l IH]; intros n j Hj.
  - now destruct j.
  - destruct j as [|j].
    + injection Hj as ->. cbn [Nat.mul Nat.add action_requests nth_error].
      rewrite !Nat.add_0_r. split; reflexivity.
    + cbn [nth_error] in Hj. destruct (IH (S (S n)) j Hj) as [H1 H2].
      replace (2 * S j) with (S (S (2 * j))) by lia.
      replace (n + S (S (2 * j))) with (S (S n) + 2 * j) by lia.
      cbn [action_requests nth_error]. split; assumption.
Qed.

Lemma nth_error_past {A} (l1 l2 : list A) (n k : nat) :
  List.length l1 = n -> nth_error (l1 ++ l2) (n + k) = nth_error l2 k.
Proof.
  intros <-. induction l1 as [|x l1 IH]; simpl; [reflexivity | exact IH].
Qed.

Lemma nth_error_front {A} (l1 l2 : list A) (k : nat) (x : A) :
  nth_error l1 k = Some x -> nth_error (l1 ++ l2) k = Some x.
Proof.
  intros H. rewrite nth_error_app1; [exact H|].
  apply nth_error_Some. now rewrite H.
Qed.

Lemma basic_length (cid : string) (d : @JsVal number) :
  List.length (basic_requests cid d) = 9.
Proof. reflexivity. Qed.

(** The materialization, flattened. *)
Lemma materialization_flat (st : list RObj) (n : nat) (player : string)
  (d : JsVal) (equipment skills languages actions traits : list JsVal)
  (b t : string) :
  materialization h st n player d equipment skills languages actions traits b t =
  ([character_request d player]
   ++ basic_requests (character_id h st d player) d
   ++ repeating_requests h (character_id h st d player) "equipment" n equipment
   ++ repeating_requests h (character_id h st d player) "skills"
        (n + List.length equipment) skills
   ++ repeating_requests h (character_id h st d player) "languages"
        (n + List.length equipment + List.length skills) languages
   ++ [ attribute_request (character_id h st d player) "appearance"
          (field d "appearance");
        attribute_request (character_id h st d player) "background"
          (field d "background");
        attribute_request (character_id h st d player) "personality_traits"
          (Str (joined_traits h traits)) ]
   ++ action_requests h (character_id h st d player)
        (n + List.length equipment + List.length skills + List.length languages)
        actions
   ++ [ability_request (character_id h st d player) (narrative b t)])%list.
Proof.
  rewrite materialization_parts. unfold field_requests.
  now rewrite <- !app_assoc.
Qed.

End Positions.

(** X16. The entries of the three lists land in the store in the order of
    the descriptor, after the character and the nine basic attributes:
    equipment first, then skills, then languages.  The entry at position
    [j] of a list is the value of a record named
    [repeating_<list>_<row>_name], whose row id comes from the draw that
    follows the draws of the entries before it. *)
Theorem list_entries_in_order {number : Type} (h : @Host number) (msg : Msg)
  (d : JsVal) (equipment skills languages actions traits : list JsVal)
  (b t : string) (w : World) :
  accepting h ->
  addressed msg ->
  JSON_parse h (payload (content msg)) = inr d ->
  WellTyped h d equipment skills languages actions traits b t ->
  exists w' news,
    handleInput h msg w = (Normal tt, w')
    /\ store w' = (store w ++ news)%list
    /\ (forall j item,
          nth_error equipment j = Some item ->
          option_map request_of (nth_error news (10 + j)) =
          Some (attribute_request (character_id h (store w) d (playerid msg))
                  ("repeating_equipment_" ++ rowid h (draws w + j) ++ "_name")
                  item))
    /\ (forall j item,
          nth_error skills j = Some item ->
          option_map request_of
            (nth_error news (10 + List.length equipment + j)) =
          Some (attribute_request (character_id h (store w) d (playerid msg))
                  ("repeating_skills_"
                   ++ rowid h (draws w + List.length equipment + j) ++ "_name")
                  item))
    /\ (forall j item,
          nth_error languages j = Some item ->
          option_map request_of
            (nth_error news
               (10 + List.length equipment + List.length skills + j)) =
          Some (attribute_request (character_id h (store w) d (playerid msg))
                  ("repeating_languages_"
                   ++ rowid h (draws w + List.length equipment
                               + List.length skills + j) ++ "_name")
                  item)).
Proof.
  intros Hacc Ha Hd Hw.
  destruct (materialized_news h msg d _ _ _ _ _ _ _ w Hacc Ha Hd Hw)
    as (w' & news & Hrun & Hst & Hm & _).
  exists w', news. split; [exact Hrun|]. split; [exact Hst|].
  rewrite materialization_flat in Hm.
  repeat split; intros j item Hj; rewrite <- nth_error_map, Hm.
  - replace (10 + j) with (1 + (9 + j)) by lia.
    rewrite (nth_error_past _ _ 1) by reflexivity.
    rewrite (nth_error_past _ _ 9) by reflexivity.
    apply nth_error_front.
    exact (nth_repeating_requests h _ "equipment" _ _ j item Hj).
  - replace (10 + List.length equipment + j)
      with (1 + (9 + (List.length equipment + j))) by lia.
    rewrite (nth_error_past _ _ 1) by reflexivity.
    rewrite (nth_error_past _ _ 9) by reflexivity.
    rewrite (nth_error_past _ _ (List.length equipment))
      by apply repeating_length.
    apply nth_error_front.
    exact (nth_repeating_requests h _ "skills" _ _ j item Hj).
  - replace (10 + List.length equipment + List.length skills + j)
      with (1 + (9 + (List.length equipment + (List.length skills + j))))
      by lia.
    rewrite (nth_error_past _ _ 1) by reflexivity.
    rewrite (nth_error_past _ _ 9) by reflexivity.
    rewrite (nth_error_past _ _ (List.length equipment))
      by apply repeating_length.
    rewrite (nth_error_past _ _ (List.length skills))
      by apply repeating_length.
    apply nth_error_front.
    exact (nth_repeating_requests h _ "languages" _ _ j item Hj).
Qed.

Lemma list_entries_in_order_witness :
  exists w' news,
    handleInput host (create grak) w0 = (Normal tt, w')
    /\ store w' = ([] ++ news)%list
    /\ option_map request_of (nth_error news (10 + 1)) =
       Some (attribute_request (character_id host [] grak "-player1")
               ("repeating_equipment_" ++ rowid host (0 + 1) ++ "_name")
               (Str "Shield"))
    /\ option_map request_of (nth_error news (10 + 2 + 0)) =
       Some (attribute_request (character_id host [] grak "-player1")
               ("repeating_skills_" ++ rowid host (0 + 2 + 0) ++ "_name")
               (Str "Athletics"))
    /\ option_map request_of (nth_error news (10 + 2 + 1 + 1)) =
       Some (attribute_request (character_id host [] grak "-player1")
               ("repeating_languages_" ++ rowid host (0 + 2 + 1 + 1) ++ "_name")
               (Str "Orcish")).
Proof.
  destruct (list_entries_in_order host (create grak) grak
              [Str "Axe"; Str "Shield"] [Str "Athletics"]
              [Str "Common"; Str "Orcish"]
              [Obj [("name", Str "Slam"); ("description", Str "2d6 bludgeoning")]]
              [Str "Gruff"; Str "Loyal"] "Former gladiator" "Gruff,Loyal" w0)
    as (w' & news & Hrun & Hst & He & Hs & Hl).
  - intros st ty ps. eexists. reflexivity.
  - split; reflexivity.
  - vm_compute. reflexivity.
  - constructor; reflexivity.
  - exists w', news. split; [exact Hrun|]. split; [exact Hst|].
    split; [|split].
    + apply (He 1 (Str "Shield")). reflexivity.
    + apply (Hs 0 (Str "Athletics")). reflexivity.
    + apply (Hl 1 (Str "Orcish")). reflexivity.
Defined.

(** X17. The actions land after the twelve scalar attributes and the list
    entries, in the order of the descriptor, two records for each.  For the
    action at position [j], the first record holds its [name] and the
    second its [description] ([undefined] when the action has none); the
    row id of the first comes from one draw of the generator and the row id
    of the second from the next draw. *)
Theorem actions_in_order {number : Type} (h : @Host number) (msg : Msg)
  (d : JsVal) (equipment skills languages actions traits : list JsVal)
  (b t : string) (w : World) :
  accepting h ->
  addressed msg ->
  JSON_parse h (payload (content msg)) = inr d ->
  WellTyped h d equipment skills languages actions traits b t ->
  exists w' news,
    handleInput h msg w = (Normal tt, w')
    /\ store w' = (store w ++ news)%list
    /\ (forall j action,
          nth_error actions j = Some action ->
          let base :=
            List.length equipment + List.length skills + List.length languages in
          option_map request_of (nth_error news (13 + base + 2 * j)) =
          Some (attribute_request (character_id h (store w) d (playerid msg))
                  ("repeating_npcaction_"
                   ++ rowid h (draws w + base + 2 * j) ++ "_name")
                  (field action "name"))
          /\ option_map request_of (nth_error news (13 + base + 2 * j + 1)) =
             Some (attribute_request (character_id h (store w) d (playerid msg))
                     ("repeating_npcaction_"
                      ++ rowid h (draws w + base + 2 * j + 1) ++ "_description")
                     (field action "description"))).
Proof.
  intros Hacc Ha Hd Hw.
  destruct (materialized_news h msg d _ _ _ _ _ _ _ w Hacc Ha Hd Hw)
    as (w' & news & Hrun & Hst & Hm & _).
  exists w', news. split; [exact Hrun|]. split; [exact Hst|].
  rewrite materialization_flat in Hm.
  intros j action Hj base.
  destruct (nth_action_requests h
              (character_id h (store w) d (playerid msg)) actions
              (draws w + List.length equipment + List.length skills
               + List.length languages) j action Hj) as [H1 H2].
  rewrite <- !nth_error_map, Hm. subst base.
  replace (draws w
           + (List.length equipment + List.length skills + List.length languages)
           + 2 * j + 1)
    with (S (draws w + List.length equipment + List.length skills
             + List.length languages + 2 * j)) by lia.
  replace (draws w
           + (List.length equipment + List.length skills + List.length languages)
           + 2 * j)
    with (draws w + List.length equipment + List.length skills
          + List.length languages + 2 * j) by lia.
  split.
  - replace (13 + (List.length equipment + List.length skills
                   + List.length languages) + 2 * j)
      with (1 + (9 + (List.length equipment
                      + (List.length skills
                         + (List.length languages + (3 + 2 * j)))))) by lia.
    rewrite (nth_error_past _ _ 1) by reflexivity.
    rewrite (nth_error_past _ _ 9) by reflexivity.
    rewrite (nth_error_past _ _ (List.length equipment))
      by apply repeating_length.
    rewrite (nth_error_past _ _ (List.length skills))
      by apply repeating_length.
    rewrite (nth_error_past _ _ (List.length languages))
      by apply repeating_length.
    rewrite (nth_error_past _ _ 3) by reflexivity.
    apply nth_error_front. exact H1.
  - replace (13 + (List.length equipment + List.length skills
                   + List.length languages) + 2 * j + 1)
      with (1 + (9 + (List.length equipment
                      + (List.length skills
                         + (List.length languages + (3 + S (2 * j)))))))
      by lia.
    rewrite (nth_error_past _ _ 1) by reflexivity.
    rewrite (nth_error_past _ _ 9) by reflexivity.
    rewrite (nth_error_past _ _ (List.length equipment))
      by apply repeating_length.
    rewrite (nth_error_past _ _ (List.length skills))
      by apply repeating_length.
    rewrite (nth_error_past _ _ (List.length languages))
      by apply repeating_length.
    rewrite (nth_error_past _ _ 3) by reflexivity.
    apply nth_error_front. exact H2.
Qed.

Lemma actions_in_order_witness :
  exists w' news,
    handleInput host (create grak) w0 = (Normal tt, w')
    /\ store w' = ([] ++ news)%list
    /\ option_map request_of (nth_error news (13 + (2 + 1 + 2) + 2 * 0)) =
       Some (attribute_request (character_id host [] grak "-player1")
               ("repeating_npcaction_"
                ++ rowid host (0 + (2 + 1 + 2) + 2 * 0) ++ "_name")
               (Str "Slam"))
    /\ option_map request_of (nth_error news (13 + (2 + 1 + 2) + 2 * 0 + 1)) =
       Some (attribute_request (character_id host [] grak "-player1")
               ("repeating_npcaction_"
                ++ rowid host (0 + (2 + 1 + 2) + 2 * 0 + 1) ++ "_description")
               (Str "2d6 bludgeoning")).
Proof.
  destruct (actions_in_order host (create grak) grak
              [Str "Axe"; Str "Shield"] [Str "Athletics"]
              [Str "Common"; Str "Orcish"]
              [Obj [("name", Str "Slam"); ("description", Str "2d6 bludgeoning")]]
              [Str "Gruff"; Str "Loyal"] "Former gladiator" "Gruff,Loyal" w0)
    as (w' & news & Hrun & Hst & Hact).
  - intros st ty ps. eexists. reflexivity.
  - split; reflexivity.
  - vm_compute. reflexivity.
  - constructor; reflexivity.
  - exists w', news. split; [exact Hrun|]. split; [exact Hst|].
    apply (Hact 0 (Obj [("name", Str "Slam");
                        ("description", Str "2d6 bludgeoning")])).
    reflexivity.
Defined.
